(** * recipe-app-api: the recipe, tag, ingredient and user views

    A shallow embedding of [app/recipe/views.py], [app/recipe/filters.py],
    [app/user/views.py] and [app/user/urls.py].  Handlers are functions of
    the request and the database; an exception is a value of [result].
    The framework classes the views inherit from (authentication,
    permissions, filter backends, generic views and mixins) are embedded
    next to the code that configures them.  A string is a sequence of
    characters with code points below 256. *)

From Stdlib Require Import ZArith String Ascii.
From stdpp Require Import base tactics decidable option list strings sorting gmap.

Local Open Scope string_scope.
Local Open Scope list_scope.
Local Open Scope Z_scope.

(** ** Request and response data *)

#[local] Set Warnings "-register-all".

(** Parsed request bodies and rendered response bodies. *)
Inductive json :=
| JNull
| JNum (n : Z)
| JStr (s : string)
| JList (l : list json)
| JObj (fields : list (string * json)).

Inductive Method := GET | POST | PUT | PATCH | DELETE.

Inductive exn :=
| ValueError
| TypeError
| AttributeError (name : string)
| FieldError (name : string)
| DoesNotExist
| MethodNotAllowed (method : Method)
| AssertionError
| MultipleObjectsReturned
| Http404
| NotFound (detail : string)
| NotAuthenticated
| AuthenticationFailed (detail : string)
| PermissionDenied
| ValidationError (detail : json).

(** The outcome of running Python code: a value or a raised exception. *)
Inductive result (A : Type) :=
| Ok (a : A)
| Raise (e : exn).
Arguments Ok {A} a.
Arguments Raise {A} e.

#[global] Instance result_ret : MRet result := fun _ a => Ok a.

#[global] Instance result_bind : MBind result := fun _ _ k m =>
  match m with
  | Ok a => k a
  | Raise e => Raise e
  end.

Record Request := {
  method : Method;
  (** the key of an [Authorization: Token <key>] header, when one is sent *)
  auth_token : option string;
  (** the query string, in the order of the URL *)
  query_params : list (string * string);
  (** the parsed body *)
  data : json;
  (** the [pk] segment of a detail URL *)
  pk : string
}.

Record Response := {
  status : Z;
  body : json
}.

Definition HTTP_200_OK : Z := 200.
Definition HTTP_204_NO_CONTENT : Z := 204.
Definition HTTP_400_BAD_REQUEST : Z := 400.
Definition HTTP_401_UNAUTHORIZED : Z := 401.
Definition HTTP_403_FORBIDDEN : Z := 403.
Definition HTTP_404_NOT_FOUND : Z := 404.
Definition HTTP_405_METHOD_NOT_ALLOWED : Z := 405.

(** ** Python built-ins used by the views *)
Module Py.

(** What [query_params.get(key, 0)] can return: the parameter's text or
    the integer default. *)
Inductive value :=
| Int (n : Z)
| Str (s : string).

Definition code (c : ascii) : Z := Z.of_nat (nat_of_ascii c).

(** [str.isspace] of one character: the white space of [str.strip] and
    [str.split]. *)
Definition isspace (c : ascii) : bool :=
  ((9 <=? code c) && (code c <=? 13)) ||
  ((28 <=? code c) && (code c <=? 32)) ||
  (code c =? 133) || (code c =? 160).

(** The white space [int] skips around a numeral: tab to carriage
    return and the blank.  The two white-space characters above 127 are
    read as blanks; the separators 28 to 31 are not skipped. *)
Definition int_space (c : ascii) : bool :=
  ((9 <=? code c) && (code c <=? 13)) || (code c =? 32) ||
  (code c =? 133) || (code c =? 160).

Definition digit (c : ascii) : option Z :=
  if (48 <=? code c) && (code c <=? 57) then Some (code c - 48) else None.

Fixpoint lstrip (s : string) : string :=
  match s with
  | String c s' => if isspace c then lstrip s' else s
  | EmptyString => EmptyString
  end.

Definition strip (s : string) : string :=
  String.rev (lstrip (String.rev (lstrip s))).

Fixpoint int_lstrip (s : string) : string :=
  match s with
  | String c s' => if int_space c then int_lstrip s' else s
  | EmptyString => EmptyString
  end.

Definition int_strip (s : string) : string :=
  String.rev (int_lstrip (String.rev (int_lstrip s))).

(** Decimal digits with single underscores between them;
    [after_digit] says whether the text may end (or an underscore may
    come) here. *)
Fixpoint digits (acc : Z) (after_digit : bool) (s : string) : option Z :=
  match s with
  | EmptyString => if after_digit then Some acc else None
  | String c s' =>
      match digit c with
      | Some d => digits (10 * acc + d) true s'
      | None =>
          if Ascii.eqb c "_" && after_digit then digits acc false s'
          else None
      end
  end.

(** The number of digits [int] reads a numeral of at most
    ([sys.get_int_max_str_digits()], by default). *)
Definition int_max_str_digits : nat := 4300.

Fixpoint count_digits (s : string) : nat :=
  match s with
  | EmptyString => 0
  | String c s' =>
      ((if digit c is Some _ then 1 else 0) + count_digits s')%nat
  end.

Definition numeral (s : string) : option Z :=
  if (int_max_str_digits <? count_digits s)%nat then None
  else digits 0 false s.

(** [int(s)] on text: surrounding white space, an optional sign, digits. *)
Definition int_of_str (s : string) : option Z :=
  match int_strip s with
  | String "+" r => numeral r
  | String "-" r => Z.opp <$> numeral r
  | r => numeral r
  end.

Definition int (v : value) : result Z :=
  match v with
  | Int n => Ok n
  | Str s =>
      match int_of_str s with
      | Some n => Ok n
      | None => Raise ValueError
      end
  end.

(** [bool(n)] on an integer. *)
Definition bool (n : Z) : Datatypes.bool := negb (n =? 0).

Fixpoint startswith (p s : string) : Datatypes.bool :=
  match p, s with
  | EmptyString, _ => true
  | String a p', String b s' => Ascii.eqb a b && startswith p' s'
  | String _ _, EmptyString => false
  end.

(** [s[1:]] *)
Definition tail (s : string) : string :=
  match s with
  | EmptyString => EmptyString
  | String _ s' => s'
  end.

(** [s.replace('\x00', '').replace(',', ' ')] followed by turning every
    white-space character into a blank, so that [split] on blanks and
    dropping the empty pieces is [s.split()]. *)
Fixpoint blank_separators (s : string) : string :=
  match s with
  | EmptyString => EmptyString
  | String c s' =>
      if code c =? 0 then blank_separators s'
      else String (if isspace c || Ascii.eqb c "," then " "%char else c)
             (blank_separators s')
  end.

Fixpoint split_go (sep : ascii) (cur : string) (s : string) : list string :=
  match s with
  | EmptyString => [String.rev cur]
  | String c s' =>
      if Ascii.eqb c sep then String.rev cur :: split_go sep EmptyString s'
      else split_go sep (String c cur) s'
  end.

(** [s.split(sep)] for a one-character separator. *)
Definition split (sep : ascii) (s : string) : list string :=
  split_go sep EmptyString s.

Definition lower_ascii (c : ascii) : ascii :=
  if (65 <=? code c) && (code c <=? 90)
  then ascii_of_nat (nat_of_ascii c + 32)%nat else c.

(** The case folding of a search without regard to case, on the
    letters A to Z; what a database does with other letters depends on
    its collation. *)
Fixpoint lower (s : string) : string :=
  match s with
  | EmptyString => EmptyString
  | String c s' => String (lower_ascii c) (lower s')
  end.

Fixpoint contains (needle hay : string) : Datatypes.bool :=
  startswith needle hay ||
  match hay with
  | EmptyString => false
  | String _ hay' => contains needle hay'
  end.

End Py.

(** [QueryDict.get(key)]: the last value given for the key. *)
Definition QueryDict_get (q : list (string * string)) (key : string)
  : option string :=
  last (snd <$> filter (fun kv => kv.1 = key) q).

Definition QueryDict_get_default (q : list (string * string)) (key : string)
    (default : Z) : Py.value :=
  match QueryDict_get q key with
  | Some s => Py.Str s
  | None => Py.Int default
  end.


(** ** Data model *)

(** Modelled from the spec: [core/models.py] is not among the sources.
    User: identity and credentials ([is_active] is the flag the
    framework's token authentication reads).  A table maps primary keys to
    rows. *)
Record User := {
  email : string;
  password : string;
  is_active : bool
}.

(** Modelled from the spec: Tag and Ingredient are named attributes, each
    owned by a User. *)
Record Attr := {
  attr_user : Z;
  name : string
}.

(** Modelled from the spec: a Recipe belongs to exactly one User and has
    title, description, time estimate, price and an optional image. *)
Record Recipe := {
  recipe_user : Z;
  title : string;
  description : string;
  time_minutes : Z;
  price : Z;
  image : option string
}.

(** Modelled from the spec: the relational store.  [recipe_tags] and
    [recipe_ingredients] are the many-to-many link tables, pairs of a
    recipe key and a tag (ingredient) key; [tokens] maps a token key to
    its user's key. *)
Record DB := {
  users : gmap Z User;
  tokens : gmap string Z;
  recipes : gmap Z Recipe;
  tags : gmap Z Attr;
  ingredients : gmap Z Attr;
  recipe_tags : list (Z * Z);
  recipe_ingredients : list (Z * Z)
}.

#[global] Instance User_eq_dec : EqDecision User.
Proof. solve_decision. Defined.
#[global] Instance Attr_eq_dec : EqDecision Attr.
Proof. solve_decision. Defined.
#[global] Instance Recipe_eq_dec : EqDecision Recipe.
Proof. solve_decision. Defined.

(** A model instance: a row with its primary key. *)
Definition instance (A : Type) : Type := Z * A.

(** What the object-relational mapper needs of a model class. *)
Class Model (A : Type) := {
  model_eq_dec :: EqDecision A;
  (** the columns a query can be ordered by *)
  field_compare : string -> option (instance A -> instance A -> comparison);
  (** [Model.objects]: the model's table *)
  objects : DB -> gmap Z A;
  (** [instance.save()] of a stored instance: UPDATE the row of its key *)
  save : instance A -> DB -> DB
}.

(** A model with a [user] foreign key, whose rows the API deletes. *)
Class Owned (A : Type) := {
  owner : A -> Z;
  (** [instance.delete()]: DELETE the row and its many-to-many links *)
  delete : instance A -> DB -> DB
}.

(** Tag and Ingredient have the same shape and differ in their tables. *)
Inductive AttrModel := Tag | Ingredient.

Definition set_tags (t : gmap Z Attr) (l : list (Z * Z)) (db : DB) : DB :=
  {| users := users db; tokens := tokens db; recipes := recipes db;
     tags := t; ingredients := ingredients db;
     recipe_tags := l; recipe_ingredients := recipe_ingredients db |}.

Definition set_ingredients (t : gmap Z Attr) (l : list (Z * Z)) (db : DB)
  : DB :=
  {| users := users db; tokens := tokens db; recipes := recipes db;
     tags := tags db; ingredients := t;
     recipe_tags := recipe_tags db; recipe_ingredients := l |}.

Definition set_recipes (t : gmap Z Recipe) (lt li : list (Z * Z)) (db : DB)
  : DB :=
  {| users := users db; tokens := tokens db; recipes := t;
     tags := tags db; ingredients := ingredients db;
     recipe_tags := lt; recipe_ingredients := li |}.

Definition set_users (t : gmap Z User) (tk : gmap string Z) (db : DB) : DB :=
  {| users := t; tokens := tk; recipes := recipes db;
     tags := tags db; ingredients := ingredients db;
     recipe_tags := recipe_tags db;
     recipe_ingredients := recipe_ingredients db |}.

(** The link rows of a many-to-many table that do not mention [key] in
    the column [col]. *)
Definition unlink {B} (col : Z * Z -> B) `{EqDecision B} (key : B)
    (links : list (Z * Z)) : list (Z * Z) :=
  filter (fun l => col l <> key) links.

Definition attr_table (m : AttrModel) (db : DB) : gmap Z Attr :=
  match m with Tag => tags db | Ingredient => ingredients db end.

(** The link table of the reverse relation [recipe] of a tag or
    ingredient. *)
Definition attr_links (m : AttrModel) (db : DB) : list (Z * Z) :=
  match m with
  | Tag => recipe_tags db
  | Ingredient => recipe_ingredients db
  end.

Definition attr_save (m : AttrModel) (x : instance Attr) (db : DB) : DB :=
  match m with
  | Tag => set_tags (<[x.1 := x.2]> (tags db)) (recipe_tags db) db
  | Ingredient =>
      set_ingredients (<[x.1 := x.2]> (ingredients db))
        (recipe_ingredients db) db
  end.

Definition attr_delete (m : AttrModel) (x : instance Attr) (db : DB) : DB :=
  match m with
  | Tag =>
      set_tags (base.delete x.1 (tags db)) (unlink snd x.1 (recipe_tags db)) db
  | Ingredient =>
      set_ingredients (base.delete x.1 (ingredients db))
        (unlink snd x.1 (recipe_ingredients db)) db
  end.

Definition by_pk {A} (x y : instance A) : comparison := Z.compare x.1 y.1.

Definition by_column {A B} (column : A -> B) (cmp : B -> B -> comparison)
    (x y : instance A) : comparison :=
  cmp (column x.2) (column y.2).

Definition Attr_model (m : AttrModel) : Model Attr := {|
  field_compare f :=
    if decide (f = "id") then Some by_pk
    else if decide (f = "name") then Some (by_column name String.compare)
    else None;
  objects := attr_table m;
  save := attr_save m
|}.

Definition Attr_owned (m : AttrModel) : Owned Attr := {|
  owner := attr_user;
  delete := attr_delete m
|}.

#[global] Instance Recipe_model : Model Recipe := {
  field_compare f :=
    if decide (f = "id") then Some by_pk
    else if decide (f = "title") then Some (by_column title String.compare)
    else if decide (f = "description")
    then Some (by_column description String.compare)
    else if decide (f = "time_minutes")
    then Some (by_column time_minutes Z.compare)
    else if decide (f = "price") then Some (by_column price Z.compare)
    else None;
  objects := recipes;
  save x db :=
    set_recipes (<[x.1 := x.2]> (recipes db)) (recipe_tags db)
      (recipe_ingredients db) db
}.

#[global] Instance Recipe_owned : Owned Recipe := {
  owner := recipe_user;
  delete x db :=
    set_recipes (base.delete x.1 (recipes db)) (unlink fst x.1 (recipe_tags db))
      (unlink fst x.1 (recipe_ingredients db)) db
}.

#[global] Instance User_model : Model User := {
  field_compare f := if decide (f = "id") then Some by_pk else None;
  objects := users;
  save x db := set_users (<[x.1 := x.2]> (users db)) (tokens db) db
}.

(** ** Querysets *)
Module QuerySet.

(** A queryset under construction: the rows the joins and conditions
    select (a row once per join match), whether DISTINCT is set, and
    the ORDER BY columns. *)
Record t (A : Type) := {
  rows : list (instance A);
  is_distinct : bool;
  order : list (instance A -> instance A -> comparison)
}.
Arguments rows {A} _.
Arguments is_distinct {A} _.
Arguments order {A} _.

Section ops.
Context {A : Type} {HM : Model A}.

(** [Model.objects.all()] *)
Definition all (db : DB) : t A :=
  {| rows := map_to_list (objects db); is_distinct := false; order := [] |}.

(** [.filter(...)] on columns of the model itself. *)
Definition filter (P : instance A -> bool) (qs : t A) : t A :=
  {| rows := base.filter (fun r => P r = true) (rows qs);
     is_distinct := is_distinct qs; order := order qs |}.

(** [.filter(...)] across a join: a row is selected once for every
    joined row that meets the condition. *)
Definition filter_join {B} (joined : instance A -> list B)
    (P : instance A -> B -> bool) (qs : t A) : t A :=
  {| rows := r ← rows qs;
             (fun _ => r) <$> base.filter (fun b => P r b = true) (joined r);
     is_distinct := is_distinct qs; order := order qs |}.

(** [.filter(user=...)] *)
Definition filter_user {HO : Owned A} (user : Z) (qs : t A) : t A :=
  filter (fun r => bool_decide (owner r.2 = user)) qs.

(** [.distinct()] *)
Definition distinct (qs : t A) : t A :=
  {| rows := rows qs; is_distinct := true; order := order qs |}.

Definition resolve_term (term : string)
  : result (instance A -> instance A -> comparison) :=
  let descending := Py.startswith "-" term in
  let f := if descending then Py.tail term else term in
  match field_compare f with
  | Some cmp => Ok (if descending then fun x y => CompOpp (cmp x y) else cmp)
  | None => Raise (FieldError f)
  end.

(** [.order_by(terms)]: an unknown column raises [FieldError]. *)
Definition order_by (terms : list string) (qs : t A) : result (t A) :=
  cmps ← mapM resolve_term terms;
  mret {| rows := rows qs; is_distinct := is_distinct qs; order := cmps |}.

Fixpoint lex_compare (cmps : list (instance A -> instance A -> comparison))
    (x y : instance A) : comparison :=
  match cmps with
  | [] => Eq
  | cmp :: cmps' =>
      match cmp x y with
      | Eq => lex_compare cmps' x y
      | c => c
      end
  end.

Definition row_le (cmps : list (instance A -> instance A -> comparison))
  : relation (instance A) :=
  fun x y => lex_compare cmps x y <> Gt.

#[global] Instance row_le_dec cmps : RelDecision (row_le cmps).
Proof. intros x y. unfold row_le. solve_decision. Defined.

(** Running the query: DISTINCT, then ORDER BY. *)
Definition evaluate (qs : t A) : list (instance A) :=
  merge_sort (row_le (order qs))
    (if is_distinct qs then remove_dups (rows qs) else rows qs).

(** [.get(pk=...)] *)
Definition get (key : Z) (qs : t A) : result (instance A) :=
  match evaluate (filter (fun r => bool_decide (r.1 = key)) qs) with
  | [] => Raise DoesNotExist
  | [r] => Ok r
  | _ => Raise MultipleObjectsReturned
  end.

End ops.
End QuerySet.

(** ** The framework: serializers, pagination, authentication, filters *)

(** What [is_valid] leaves in a serializer. *)
Inductive validation :=
| Valid (validated_data : json)
| Invalid (errors : json).

(** A serializer class over a model.  [recipe/serializers.py] and
    [user/serializers.py] are not among the sources: the views are
    embedded over any serializer. *)
Record Serializer (A : Type) := {
  (** [is_valid()] of [Serializer(instance, data=..., partial=...)] *)
  run_validation : bool -> instance A -> json -> validation;
  (** [update(instance, validated_data)], before the row is stored *)
  update_fields : A -> json -> A;
  to_representation : instance A -> json
}.
Arguments run_validation {A} _ _ _ _.
Arguments update_fields {A} _ _ _.
Arguments to_representation {A} _ _.

(** [serializer.save()] on a stored instance: the updated instance and
    the database with its row stored. *)
Definition Serializer_save {A} `{Model A} (s : Serializer A)
    (x : instance A) (validated_data : json) (db : DB) : instance A * DB :=
  let x' := (x.1, update_fields s x.2 validated_data) in
  (x', save x' db).

(** [Serializer(queryset, many=True).data] *)
Definition many {A} (s : Serializer A) (l : list (instance A)) : json :=
  JList (to_representation s <$> l).

(** A pagination class.  The project's settings are not among the
    sources: the views are embedded over any paginator or none.  A
    paginator is handed the queryset itself, which it may count, order
    and slice. *)
Record Paginator := {
  (** [paginate_queryset(queryset, request, view)]: the rows of the
      request's page, [None] when the request is not to be paged, or an
      error *)
  Paginator_paginate_queryset :
    forall A, Model A -> QuerySet.t A -> Request
              -> result (option (list (instance A)));
  (** [get_paginated_response(data)], for the page of the request *)
  Paginator_get_paginated_response :
    forall A, Model A -> QuerySet.t A -> Request -> json -> Response
}.

Module rest_framework.

Inductive authenticator :=
| TokenAuthentication
| SessionAuthentication
| BasicAuthentication.

Inductive permission :=
| IsAuthenticated
| AllowAny.

(** [request.user]: [None] is the anonymous user. *)
Definition principal : Type := option (instance User).

(** [authenticate(request)]: a request of the model carries no session
    and no basic credentials. *)
Definition authenticate (a : authenticator) (request : Request) (db : DB)
  : result principal :=
  match a with
  | TokenAuthentication =>
      match auth_token request with
      | None => Ok None
      | Some key =>
          match tokens db !! key with
          | None => Raise (AuthenticationFailed "Invalid token.")
          | Some uid =>
              match users db !! uid with
              | None => Raise (AuthenticationFailed "Invalid token.")
              | Some u =>
                  if is_active u then Ok (Some (uid, u))
                  else Raise (AuthenticationFailed "User inactive or deleted.")
              end
          end
      end
  | SessionAuthentication | BasicAuthentication => Ok None
  end.

(** [perform_authentication]: the first authenticator that identifies
    the requester. *)
Fixpoint perform_authentication (l : list authenticator)
    (request : Request) (db : DB) : result principal :=
  match l with
  | [] => Ok None
  | a :: l' =>
      u ← authenticate a request db;
      match u with
      | Some _ => Ok u
      | None => perform_authentication l' request db
      end
  end.

Definition has_permission (p : permission) (user : principal) : bool :=
  match p with
  | IsAuthenticated => bool_decide (is_Some user)
  | AllowAny => true
  end.

(** [check_permissions] with [permission_denied]. *)
Definition check_permissions (authenticators : list authenticator)
    (l : list permission) (user : principal) : result unit :=
  if forallb (fun p => has_permission p user) l then Ok ()
  else match authenticators, user with
       | _ :: _, None => Raise NotAuthenticated
       | _, _ => Raise PermissionDenied
       end.

(** [APIView.initial] *)
Definition initial (authenticators : list authenticator)
    (permissions : list permission) (request : Request) (db : DB)
  : result principal :=
  user ← perform_authentication authenticators request db;
  _ ← check_permissions authenticators permissions user;
  mret user.

Definition authenticate_header (a : authenticator) : bool :=
  match a with
  | TokenAuthentication | BasicAuthentication => true
  | SessionAuthentication => false
  end.

Definition detail (s : string) : json := JObj [("detail", JStr s)].

(** What a request ends in. *)
Inductive outcome :=
| Responded (r : Response) (db' : DB)
| Unhandled (e : exn).

Definition Method_name (m : Method) : string :=
  match m with
  | GET => "GET"
  | POST => "POST"
  | PUT => "PUT"
  | PATCH => "PATCH"
  | DELETE => "DELETE"
  end.

Definition double_quote : string := String (ascii_of_nat 34) EmptyString.

(** [exception_handler]: API exceptions and [Http404] become
    responses, anything else is raised again.  [Http404] is answered as
    [NotFound] with its default detail. *)
Definition exception_handler (authenticators : list authenticator)
    (e : exn) : option Response :=
  let unauthenticated :=
    match authenticators with
    | a :: _ => if authenticate_header a then HTTP_401_UNAUTHORIZED
                else HTTP_403_FORBIDDEN
    | [] => HTTP_403_FORBIDDEN
    end in
  match e with
  | Http404 =>
      Some {| status := HTTP_404_NOT_FOUND; body := detail "Not found." |}
  | NotFound d =>
      Some {| status := HTTP_404_NOT_FOUND; body := detail d |}
  | PermissionDenied =>
      Some {| status := HTTP_403_FORBIDDEN;
              body := detail "You do not have permission to perform this action." |}
  | NotAuthenticated =>
      Some {| status := unauthenticated;
              body := detail "Authentication credentials were not provided." |}
  | AuthenticationFailed d =>
      Some {| status := unauthenticated; body := detail d |}
  | ValidationError errors =>
      Some {| status := HTTP_400_BAD_REQUEST; body := errors |}
  | MethodNotAllowed m =>
      Some {| status := HTTP_405_METHOD_NOT_ALLOWED;
              body := detail ("Method " +:+ double_quote +:+ Method_name m
                              +:+ double_quote +:+ " not allowed.") |}
  | _ => None
  end.

(** [APIView.dispatch]: authenticate, check permissions, run the
    handler; an exception leaves the database as it was. *)
Definition dispatch (authenticators : list authenticator)
    (permissions : list permission)
    (handler : principal -> Request -> DB -> result (Response * DB))
    (request : Request) (db : DB) : outcome :=
  match (user ← initial authenticators permissions request db;
         handler user request db) with
  | Ok (r, db') => Responded r db'
  | Raise e =>
      match exception_handler authenticators e with
      | Some r => Responded r db
      | None => Unhandled e
      end
  end.

(** The framework settings a view without classes of its own falls
    back to. *)
Record api_settings := {
  DEFAULT_AUTHENTICATION_CLASSES : list authenticator;
  DEFAULT_PERMISSION_CLASSES : list permission
}.

(** The framework's own defaults. *)
Definition DEFAULTS : api_settings :=
  {| DEFAULT_AUTHENTICATION_CLASSES :=
       [SessionAuthentication; BasicAuthentication];
     DEFAULT_PERMISSION_CLASSES := [AllowAny] |}.

(** *** Filter backends *)

(** [OrderingFilter.remove_invalid_fields] *)
Definition term_valid (valid_fields : list string) (term : string) : bool :=
  let term := if Py.startswith "-" term then Py.tail term else term in
  bool_decide (term ∈ valid_fields).

Definition remove_invalid_fields (valid_fields : list string)
    (fields : list string) : list string :=
  List.filter (term_valid valid_fields) fields.

(** [OrderingFilter.get_ordering]: the valid terms of the [ordering]
    parameter, or the view's default when none is left. *)
Definition get_ordering (ordering_fields ordering : list string)
    (request : Request) : list string :=
  match QueryDict_get (query_params request) "ordering" with
  | Some params =>
      if bool_decide (params = "") then ordering
      else
        let fields := Py.strip <$> Py.split "," params in
        match remove_invalid_fields ordering_fields fields with
        | [] => ordering
        | terms => terms
        end
  | None => ordering
  end.

Section backends.
Context {A : Type} {HM : Model A}.

(** [OrderingFilter.filter_queryset] *)
Definition OrderingFilter (ordering_fields ordering : list string)
    (request : Request) (queryset : QuerySet.t A)
  : result (QuerySet.t A) :=
  match get_ordering ordering_fields ordering request with
  | [] => Ok queryset
  | terms => QuerySet.order_by terms queryset
  end.

(** [SearchFilter.get_search_terms]: NUL characters are dropped and
    commas count as white space. *)
Definition get_search_terms (request : Request) : list string :=
  match QueryDict_get (query_params request) "search" with
  | Some params =>
      base.filter (fun t => t <> "")
        (Py.split " " (Py.blank_separators params))
  | None => []
  end.

(** [SearchFilter.filter_queryset]: one [filter] call whose
    condition asks, of every term, that one of the search fields
    contains it without regard to case.  [joined] lists the rows the
    search fields' joins attach to a row and [field_values] reads the
    search fields off one of them; the backend asks for DISTINCT
    when a search field crosses a many-to-many relation. *)
Definition SearchFilter {B} (joined : instance A -> list B)
    (field_values : instance A -> B -> list string)
    (many_to_many : bool)
    (request : Request) (queryset : QuerySet.t A) : QuerySet.t A :=
  match get_search_terms request with
  | [] => queryset
  | terms =>
      let matches r b :=
        forallb (fun term =>
          existsb (fun v => Py.contains (Py.lower term) (Py.lower v))
            (field_values r b)) terms in
      let queryset := QuerySet.filter_join joined matches queryset in
      if many_to_many then QuerySet.distinct queryset else queryset
  end.

End backends.

(** *** Generic views *)

(** A view instance bound to its action: the methods and attributes
    the generic views and the mixins read through [self]. *)
Record GenericAPIView (A : Type) {HM : Model A} := {
  get_queryset : principal -> Request -> DB -> result (QuerySet.t A);
  filter_queryset : Request -> DB -> QuerySet.t A -> result (QuerySet.t A);
  get_object : principal -> Request -> DB -> result (instance A);
  get_serializer : Serializer A;
  paginator : option Paginator
}.
Arguments get_queryset {A _} _ _ _ _.
Arguments filter_queryset {A _} _ _ _ _.
Arguments get_object {A _} _ _ _ _.
Arguments get_serializer {A _} _.
Arguments paginator {A _} _.

(** [request.user] used as a model instance: the anonymous user is
    none, and code that treats it as one raises. *)
Definition request_user (user : principal) : result (instance User) :=
  match user with
  | Some u => Ok u
  | None => Raise TypeError
  end.

Section generics.
Context {A : Type} {HM : Model A}.

(** [get_object_or_404(queryset, pk=...)]: a key the column cannot
    take and a missing row are both [Http404]. *)
Definition get_object_or_404 (queryset : QuerySet.t A) (key : string)
  : result (instance A) :=
  match Py.int_of_str key with
  | None => Raise Http404
  | Some k =>
      match QuerySet.get k queryset with
      | Raise DoesNotExist => Raise Http404
      | r => r
      end
  end.

(** [GenericAPIView.get_object]; the permission classes of the
    views have no object-level check. *)
Definition GenericAPIView_get_object
    (get_queryset : principal -> Request -> DB -> result (QuerySet.t A))
    (filter_queryset : Request -> DB -> QuerySet.t A
                       -> result (QuerySet.t A))
    (user : principal) (request : Request) (db : DB)
  : result (instance A) :=
  queryset ← get_queryset user request db;
  queryset ← filter_queryset request db queryset;
  get_object_or_404 queryset (pk request).

Context (self : GenericAPIView A).

(** [paginate_queryset]: [None] without a pagination class. *)
Definition paginate_queryset (request : Request)
    (queryset : QuerySet.t A) : result (option (list (instance A))) :=
  match paginator self with
  | None => Ok None
  | Some p => Paginator_paginate_queryset p A HM queryset request
  end.

(** [get_paginated_response] asserts that there is a paginator. *)
Definition get_paginated_response (request : Request)
    (queryset : QuerySet.t A) (data : json) : result Response :=
  match paginator self with
  | None => Raise AssertionError
  | Some p => Ok (Paginator_get_paginated_response p A HM queryset request data)
  end.

End generics.

(** *** Mixins *)
Module mixins.
Section mixins.
Context {A : Type} {HM : Model A} (self : GenericAPIView A).

(** [RetrieveModelMixin.retrieve] *)
Definition retrieve (user : principal) (request : Request) (db : DB)
  : result (Response * DB) :=
  x ← get_object self user request db;
  Ok ({| status := HTTP_200_OK;
         body := to_representation (get_serializer self) x |}, db).

(** [UpdateModelMixin.perform_update] *)
Definition perform_update (x : instance A) (validated_data : json)
    (db : DB) : instance A * DB :=
  Serializer_save (get_serializer self) x validated_data db.

(** [UpdateModelMixin.update] *)
Definition update (partial : bool) (user : principal)
    (request : Request) (db : DB) : result (Response * DB) :=
  x ← get_object self user request db;
  match run_validation (get_serializer self) partial x (data request) with
  | Invalid errors => Raise (ValidationError errors)
  | Valid validated_data =>
      let '(x', db') := perform_update x validated_data db in
      Ok ({| status := HTTP_200_OK;
             body := to_representation (get_serializer self) x' |}, db')
  end.

(** [UpdateModelMixin.partial_update] *)
Definition partial_update (user : principal) (request : Request)
    (db : DB) : result (Response * DB) :=
  update true user request db.

(** [DestroyModelMixin.perform_destroy] *)
Definition perform_destroy {HO : Owned A} (x : instance A) (db : DB) : DB :=
  delete x db.

(** [DestroyModelMixin.destroy] *)
Definition destroy {HO : Owned A} (user : principal) (request : Request) (db : DB)
  : result (Response * DB) :=
  x ← get_object self user request db;
  Ok ({| status := HTTP_204_NO_CONTENT; body := JNull |},
      perform_destroy x db).

(** [ListModelMixin.list] *)
Definition list (user : principal) (request : Request) (db : DB)
  : result (Response * DB) :=
  queryset ← get_queryset self user request db;
  queryset ← filter_queryset self request db queryset;
  page ← paginate_queryset self request queryset;
  match page with
  | Some page =>
      r ← get_paginated_response self request queryset
             (many (get_serializer self) page);
      Ok (r, db)
  | None =>
      Ok ({| status := HTTP_200_OK;
             body := many (get_serializer self) (QuerySet.evaluate queryset) |},
          db)
  end.

End mixins.
End mixins.

End rest_framework.

(** ** The filter library *)
Module django_filters.

(** A declared filter of the class [NumberInFilter]
    ([BaseInFilter] with [NumberFilter]). *)
Record NumberInFilter := {
  field_name : string;
  lookup_expr : string
}.

(** A filter set over recipes: its declared filters, by parameter. *)
Definition FilterSet : Type := list (string * NumberInFilter).

(** The form field of the library's [NumberFilter], a decimal field:
    what it makes of one item of a comma-separated value.  [inl] holds
    the messages of a validation error, [inr None] is the empty value
    and [inr (Some k)] a number, as the key column it is compared with
    reads it.  The library is not among the sources: the filter sets are
    embedded over any such field. *)
Class NumberField := number_clean : string -> list string + option Z.

Section csv.
Context {NF : NumberField}.

(** [BaseCSVField.clean] on the items of the value: the first item that
    does not clean raises. *)
Fixpoint clean_items (items : list string)
  : list string + list (option Z) :=
  match items with
  | [] => inr []
  | item :: items' =>
      match number_clean item with
      | inl messages => inl messages
      | inr v =>
          match clean_items items' with
          | inl messages => inl messages
          | inr vs => inr (v :: vs)
          end
      end
  end.

(** The cleaned value of a parameter: [None] when the parameter is
    absent, the empty list when it is blank, else its items split at the
    commas and cleaned. *)
Definition clean_csv (value : option string)
  : list string + option (list (option Z)) :=
  match value with
  | None => inr None
  | Some "" => inr (Some [])
  | Some s =>
      match clean_items (Py.split "," s) with
      | inl messages => inl messages
      | inr vs => inr (Some vs)
      end
  end.

End csv.

(** The keys a lookup path reaches from a recipe, one per joined row. *)
Definition related_keys (db : DB) (path : string)
  : option (instance Recipe -> list Z) :=
  if decide (path = "tags__id")
  then Some (fun r => snd <$> filter (fun l => l.1 = r.1) (recipe_tags db))
  else if decide (path = "ingredients__id")
  then Some (fun r =>
               snd <$> filter (fun l => l.1 = r.1) (recipe_ingredients db))
  else if decide (path = "id") then Some (fun r => [r.1])
  else None.

(** [Filter.filter(qs, value)]: an empty value leaves the queryset as
    it is, otherwise [qs.filter(field_name__in=value)]. *)
Definition Filter_filter (db : DB) (f : NumberInFilter)
    (value : option (list (option Z))) (qs : QuerySet.t Recipe)
  : result (QuerySet.t Recipe) :=
  match value with
  | None | Some [] => Ok qs
  | Some values =>
      if decide (lookup_expr f = "in") then
        match related_keys db (field_name f) with
        | Some keys =>
            Ok (QuerySet.filter_join keys
                  (fun _ k => bool_decide (Some k ∈ values)) qs)
        | None => Raise (FieldError (field_name f))
        end
      else Raise (FieldError (lookup_expr f))
  end.

Section filterset.
Context {NF : NumberField}.

(** The form's errors: the parameters whose value does not clean, in
    the order the filters are declared in, each with its messages. *)
Definition errors (fs : FilterSet) (request : Request)
  : list (string * list string) :=
  omap (fun nf =>
          match clean_csv (QueryDict_get (query_params request) nf.1) with
          | inl messages => Some (nf.1, messages)
          | inr _ => None
          end) fs.

(** [FilterSet.filter_queryset], of a valid form: every declared filter
    in turn, on the cleaned value of its parameter. *)
Fixpoint FilterSet_filter_queryset (db : DB) (fs : FilterSet)
    (request : Request) (qs : QuerySet.t Recipe)
  : result (QuerySet.t Recipe) :=
  match fs with
  | [] => Ok qs
  | (param, f) :: fs' =>
      let value :=
        match clean_csv (QueryDict_get (query_params request) param) with
        | inr value => value
        | inl _ => None
        end in
      qs ← Filter_filter db f value qs;
      FilterSet_filter_queryset db fs' request qs
  end.

(** [DjangoFilterBackend.filter_queryset]: an invalid form is a
    validation error. *)
Definition DjangoFilterBackend (fs : FilterSet) (request : Request)
    (db : DB) (qs : QuerySet.t Recipe) : result (QuerySet.t Recipe) :=
  match errors fs request with
  | [] => FilterSet_filter_queryset db fs request qs
  | invalid =>
      Raise (ValidationError
               (JObj ((fun e => (e.1, JList (JStr <$> e.2))) <$> invalid)))
  end.

End filterset.

End django_filters.

(** ** [recipe/filters.py] *)
Module recipe_filters.
Import django_filters.

Definition RecipeFilter : FilterSet :=
  [("tags", {| field_name := "tags__id"; lookup_expr := "in" |});
   ("ingredients", {| field_name := "ingredients__id"; lookup_expr := "in" |})].

(** The filter sets the module binds, by name. *)
Definition namespace : list (string * FilterSet) :=
  [("RecipeFilter", RecipeFilter)].

(** Attribute access on the module. *)
Definition getattr (attr : string) : result FilterSet :=
  match list_find (fun b => b.1 = attr) namespace with
  | Some (_, (_, fs)) => Ok fs
  | None => Raise (AttributeError attr)
  end.

End recipe_filters.

(** ** [recipe/views.py] *)
Module recipe_views.
Import rest_framework.

(** The classes of [recipe/serializers.py] the views name. *)
Record serializers := {
  RecipeSerializer : Serializer Recipe;
  RecipeDetailSerializer : Serializer Recipe;
  RecipeImageSerializer : Serializer Recipe;
  TagSerializer : Serializer Attr;
  IngredientSerializer : Serializer Attr
}.

(** The actions of the viewsets that are embedded ([create] is not). *)
Inductive action :=
| Act_list
| Act_retrieve
| Act_update
| Act_partial_update
| Act_destroy
| Act_upload_image.

Module RecipeViewSet.

Definition authentication_classes := [TokenAuthentication].
Definition permission_classes := [IsAuthenticated].

(** [filterset_class = my_filters.RecipeViewSetFilter], evaluated
    when the class body runs. *)
Definition filterset_class : result django_filters.FilterSet :=
  recipe_filters.getattr "RecipeViewSetFilter".

Definition search_fields : list string :=
  ["title"; "description"; "tags__name"; "ingredients__name"].

(** Adjacent string literals are one string. *)
Definition ordering_fields : list string :=
  ["id"; "time_minutes" +:+ "price"].

Definition ordering : list string := ["-id"].

Definition get_queryset (user : principal) (request : Request) (db : DB)
  : result (QuerySet.t Recipe) :=
  user ← request_user user;
  let queryset := QuerySet.all db in
  Ok (QuerySet.distinct (QuerySet.filter_user user.1 queryset)).

(** The rows a LEFT OUTER JOIN attaches: the related rows, or one
    NULL row when there is none. *)
Definition left_join {B} (l : list B) : list (option B) :=
  match l with
  | [] => [None]
  | _ => Some <$> l
  end.

Definition related (links : list (Z * Z)) (table : gmap Z Attr)
    (r : instance Recipe) : list Attr :=
  omap (fun l => table !! l.2) (filter (fun l => l.1 = r.1) links).

(** The rows the search fields join to a recipe: a tag (or NULL)
    and an ingredient (or NULL). *)
Definition search_joined (db : DB) (r : instance Recipe)
  : list (option Attr * option Attr) :=
  t ← left_join (related (recipe_tags db) (tags db) r);
  i ← left_join (related (recipe_ingredients db) (ingredients db) r);
  [(t, i)].

Definition search_value (r : instance Recipe)
    (b : option Attr * option Attr) (field : string) : option string :=
  if decide (field = "title") then Some (title r.2)
  else if decide (field = "description") then Some (description r.2)
  else if decide (field = "tags__name") then name <$> b.1
  else if decide (field = "ingredients__name") then name <$> b.2
  else None.

Section view.
Context {NF : django_filters.NumberField}.

(** [filter_backends]: ordering, then search, then the filter set.
    The filter set is the class [filterset_class] is bound to. *)
Definition filter_queryset (fs : django_filters.FilterSet)
    (request : Request) (db : DB) (queryset : QuerySet.t Recipe)
  : result (QuerySet.t Recipe) :=
  queryset ← OrderingFilter ordering_fields ordering request queryset;
  let queryset :=
    SearchFilter (search_joined db)
      (fun r b => omap (search_value r b) search_fields) true
      request queryset in
  django_filters.DjangoFilterBackend fs request db queryset.

Definition get_serializer_class (s : serializers) (a : action)
  : Serializer Recipe :=
  match a with
  | Act_list => RecipeSerializer s
  | Act_upload_image => RecipeImageSerializer s
  | _ => RecipeDetailSerializer s
  end.

(** The view instance serving action [a]. *)
Definition self (fs : django_filters.FilterSet) (s : serializers)
    (pagination : option Paginator) (a : action) : GenericAPIView Recipe :=
  {| rest_framework.get_queryset := get_queryset;
     rest_framework.filter_queryset := filter_queryset fs;
     rest_framework.get_object :=
       GenericAPIView_get_object get_queryset (filter_queryset fs);
     rest_framework.get_serializer := get_serializer_class s a;
     rest_framework.paginator := pagination |}.

(** The [upload-image] action. *)
Definition upload_image (fs : django_filters.FilterSet) (s : serializers)
    (pagination : option Paginator) (user : principal)
    (request : Request) (db : DB) : result (Response * DB) :=
  let self := self fs s pagination Act_upload_image in
  recipe ← get_object self user request db;
  let serializer := get_serializer self in
  match run_validation serializer false recipe (data request) with
  | Valid validated_data =>
      let '(recipe', db') :=
        Serializer_save serializer recipe validated_data db in
      Ok ({| status := HTTP_200_OK;
             body := to_representation serializer recipe' |}, db')
  | Invalid errors =>
      Ok ({| status := HTTP_400_BAD_REQUEST; body := errors |}, db)
  end.

(** The handler of an action, for the filter set [filterset_class]
    is bound to. *)
Definition handler (fs : django_filters.FilterSet) (s : serializers)
    (pagination : option Paginator) (a : action)
  : principal -> Request -> DB -> result (Response * DB) :=
  let self := self fs s pagination a in
  match a with
  | Act_list => mixins.list self
  | Act_retrieve => mixins.retrieve self
  | Act_update => mixins.update self false
  | Act_partial_update => mixins.partial_update self
  | Act_destroy => mixins.destroy self
  | Act_upload_image => upload_image fs s pagination
  end.

(** The view serving a request, for the filter set [filterset_class]
    is bound to. *)
Definition serve (fs : django_filters.FilterSet) (s : serializers)
    (pagination : option Paginator) (a : action) (request : Request)
    (db : DB) : outcome :=
  dispatch authentication_classes permission_classes
    (handler fs s pagination a) request db.

(** The view as the router serves it.  The class body runs when
    the module is imported: the view serves requests once
    [filterset_class] has a value. *)
Definition as_view (s : serializers) (pagination : option Paginator)
    (a : action) (request : Request) (db : DB) : outcome :=
  match filterset_class with
  | Raise e => Unhandled e
  | Ok fs => serve fs s pagination a request db
  end.

End view.
End RecipeViewSet.

(** Tag and ingredient viewsets built on the framework's mixins.
    [as_view] is the view of the class, as its class statement defines
    it; what the module serves is [recipe_views.view], below. *)
Module BaseRecipeAttrViewSet.
Section view.
Context (model : AttrModel) (serializer_class : Serializer Attr)
        (pagination : option Paginator).

#[local] Instance queryset_model : Model Attr := Attr_model model.
#[local] Instance queryset_owned : Owned Attr := Attr_owned model.

Definition authentication_classes := [TokenAuthentication].
Definition permission_classes := [IsAuthenticated].
Definition search_fields : list string := ["name"].
Definition ordering_fields : list string := ["id"; "name"].
Definition ordering : list string := ["-name"].

(** [queryset.filter(recipe__isnull=False)]: the join with the
    link table of the reverse relation. *)
Definition filter_recipe_isnull_false (db : DB)
    (queryset : QuerySet.t Attr) : QuerySet.t Attr :=
  QuerySet.filter_join
    (fun r => filter (fun l => l.2 = r.1) (attr_links model db))
    (fun _ _ => true) queryset.

Definition get_queryset (user : principal) (request : Request)
    (db : DB) : result (QuerySet.t Attr) :=
  n ← Py.int (QueryDict_get_default (query_params request)
                "assigned_only" 0);
  let assigned_only := Py.bool n in
  let queryset := QuerySet.all db in
  let queryset :=
    if assigned_only then filter_recipe_isnull_false db queryset
    else queryset in
  user ← request_user user;
  Ok (QuerySet.distinct (QuerySet.filter_user user.1 queryset)).

Definition search_value (r : instance Attr) (field : string)
  : option string :=
  if decide (field = "name") then Some (name r.2) else None.

(** [filter_backends]: search, then ordering. *)
Definition filter_queryset (request : Request) (db : DB)
    (queryset : QuerySet.t Attr) : result (QuerySet.t Attr) :=
  let queryset :=
    SearchFilter (fun _ => [()])
      (fun r _ => omap (search_value r) search_fields) false
      request queryset in
  OrderingFilter ordering_fields ordering request queryset.

Definition self : GenericAPIView Attr :=
  {| rest_framework.get_queryset := get_queryset;
     rest_framework.filter_queryset := filter_queryset;
     rest_framework.get_object :=
       GenericAPIView_get_object get_queryset filter_queryset;
     rest_framework.get_serializer := serializer_class;
     rest_framework.paginator := pagination |}.

(** The handler of an action: the mixins' methods. *)
Definition handler (a : action)
  : principal -> Request -> DB -> result (Response * DB) :=
  match a with
  | Act_list => mixins.list self
  | Act_update => mixins.update self false
  | Act_partial_update => mixins.partial_update self
  | Act_destroy => mixins.destroy self
  | Act_retrieve | Act_upload_image =>
      fun _ request _ => Raise (MethodNotAllowed (method request))
  end.

Definition as_view (a : action) (request : Request) (db : DB)
  : outcome :=
  dispatch authentication_classes permission_classes (handler a)
    request db.

End view.
End BaseRecipeAttrViewSet.

(** Tag and ingredient viewsets with the same methods written out.
    [as_view] is the view of the class, as its class statement defines
    it; what the module serves is [recipe_views.view], below. *)
Module BaseRecipeAttrMixClearViewSet.
Section view.
Context (model : AttrModel) (serializer_class : Serializer Attr)
        (pagination : option Paginator).

#[local] Instance queryset_model : Model Attr := Attr_model model.
#[local] Instance queryset_owned : Owned Attr := Attr_owned model.

Definition authentication_classes := [TokenAuthentication].
Definition permission_classes := [IsAuthenticated].
Definition search_fields : list string := ["name"].
Definition ordering_fields : list string := ["id"; "name"].
Definition ordering : list string := ["-name"].

Definition get_queryset (user : principal) (request : Request)
    (db : DB) : result (QuerySet.t Attr) :=
  n ← Py.int (QueryDict_get_default (query_params request)
                "assigned_only" 0);
  let assigned_only := Py.bool n in
  let queryset := QuerySet.all db in
  let queryset :=
    if assigned_only
    then QuerySet.filter_join
           (fun r => filter (fun l => l.2 = r.1) (attr_links model db))
           (fun _ _ => true) queryset
    else queryset in
  user ← request_user user;
  Ok (QuerySet.distinct (QuerySet.filter_user user.1 queryset)).

Definition search_value (r : instance Attr) (field : string)
  : option string :=
  if decide (field = "name") then Some (name r.2) else None.

Definition filter_queryset (request : Request) (db : DB)
    (queryset : QuerySet.t Attr) : result (QuerySet.t Attr) :=
  let queryset :=
    SearchFilter (fun _ => [()])
      (fun r _ => omap (search_value r) search_fields) false
      request queryset in
  OrderingFilter ordering_fields ordering request queryset.

Definition self : GenericAPIView Attr :=
  {| rest_framework.get_queryset := get_queryset;
     rest_framework.filter_queryset := filter_queryset;
     rest_framework.get_object :=
       GenericAPIView_get_object get_queryset filter_queryset;
     rest_framework.get_serializer := serializer_class;
     rest_framework.paginator := pagination |}.

Definition update (partial : bool) (user : principal)
    (request : Request) (db : DB) : result (Response * DB) :=
  x ← get_object self user request db;
  let serializer := get_serializer self in
  match run_validation serializer partial x (data request) with
  | Invalid errors => Raise (ValidationError errors)
  | Valid validated_data =>
      let '(x', db') := Serializer_save serializer x validated_data db in
      Ok ({| status := HTTP_200_OK;
             body := to_representation serializer x' |}, db')
  end.

Definition partial_update (user : principal) (request : Request)
    (db : DB) : result (Response * DB) :=
  update true user request db.

Definition destroy (user : principal) (request : Request) (db : DB)
  : result (Response * DB) :=
  x ← get_object self user request db;
  Ok ({| status := HTTP_204_NO_CONTENT; body := JNull |}, delete x db).

Definition list (user : principal) (request : Request) (db : DB)
  : result (Response * DB) :=
  queryset ← get_queryset user request db;
  queryset ← filter_queryset request db queryset;
  page ← paginate_queryset self request queryset;
  match page with
  | Some page =>
      let serializer := get_serializer self in
      r ← get_paginated_response self request queryset
             (many serializer page);
      Ok (r, db)
  | None =>
      let serializer := get_serializer self in
      Ok ({| status := HTTP_200_OK;
             body := many serializer (QuerySet.evaluate queryset) |}, db)
  end.

Definition handler (a : action)
  : principal -> Request -> DB -> result (Response * DB) :=
  match a with
  | Act_list => list
  | Act_update => update false
  | Act_partial_update => partial_update
  | Act_destroy => destroy
  | Act_retrieve | Act_upload_image =>
      fun _ request _ => Raise (MethodNotAllowed (method request))
  end.

Definition as_view (a : action) (request : Request) (db : DB)
  : outcome :=
  dispatch authentication_classes permission_classes (handler a)
    request db.

End view.
End BaseRecipeAttrMixClearViewSet.

(** *** The module as it is imported *)

(** The class statements of the module, in the order they are written
    in (lines 57, 139, 170, 177, 204, 264 and 271). *)
Inductive class_statement :=
| class_RecipeViewSet
| class_BaseRecipeAttrViewSet
| class_TagViewSet
| class_IngredientViewSet
| class_BaseRecipeAttrMixClearViewSet
| class_TagNoMixViewSet
| class_IngredientNoMixViewSet.

#[global] Instance class_statement_eq_dec : EqDecision class_statement.
Proof. solve_decision. Defined.

Definition module_body : list class_statement :=
  [class_RecipeViewSet; class_BaseRecipeAttrViewSet; class_TagViewSet;
   class_IngredientViewSet; class_BaseRecipeAttrMixClearViewSet;
   class_TagNoMixViewSet; class_IngredientNoMixViewSet].

(** Running the body of a class statement.  The body of
    [RecipeViewSet] evaluates [my_filters.RecipeViewSetFilter]; the other
    bodies read only names that the imports of the module and the
    earlier class statements bind. *)
Definition class_body (c : class_statement) : result unit :=
  match c with
  | class_RecipeViewSet => _ ← RecipeViewSet.filterset_class; Ok ()
  | _ => Ok ()
  end.

(** Running class statements from top to bottom: each binds its class
    once its body has run, and an exception ends the run. *)
Fixpoint exec (statements : list class_statement)
    (bound : list class_statement) : result (list class_statement) :=
  match statements with
  | [] => Ok bound
  | c :: statements' =>
      _ ← class_body c;
      exec statements' (bound ++ [c])
  end.

(** [import recipe.views]: the classes the module binds, or the
    exception that ends the import and leaves no module. *)
Definition import_module : result (list class_statement) :=
  exec module_body [].

(** The viewsets of the module that a router can register. *)
Inductive viewset :=
| TagViewSet
| IngredientViewSet
| TagNoMixViewSet
| IngredientNoMixViewSet
| RecipeViewSet.

Definition class_of (v : viewset) : class_statement :=
  match v with
  | TagViewSet => class_TagViewSet
  | IngredientViewSet => class_IngredientViewSet
  | TagNoMixViewSet => class_TagNoMixViewSet
  | IngredientNoMixViewSet => class_IngredientNoMixViewSet
  | RecipeViewSet => class_RecipeViewSet
  end.

Definition class_name (v : viewset) : string :=
  match v with
  | TagViewSet => "TagViewSet"
  | IngredientViewSet => "IngredientViewSet"
  | TagNoMixViewSet => "TagNoMixViewSet"
  | IngredientNoMixViewSet => "IngredientNoMixViewSet"
  | RecipeViewSet => "RecipeViewSet"
  end.

(** A viewset of the module as its user gets it: [from recipe import
    views] runs the import, and [views.<Class>.as_view(...)] is the view
    of the class the module binds under the name. *)
Definition view {NF : django_filters.NumberField} (v : viewset)
    (s : serializers) (pagination : option Paginator) (a : action)
    (request : Request) (db : DB) : outcome :=
  match import_module with
  | Raise e => Unhandled e
  | Ok bound =>
      if decide (class_of v ∈ bound) then
        match v with
        | TagViewSet =>
            BaseRecipeAttrViewSet.as_view Tag (TagSerializer s) pagination
              a request db
        | IngredientViewSet =>
            BaseRecipeAttrViewSet.as_view Ingredient (IngredientSerializer s)
              pagination a request db
        | TagNoMixViewSet =>
            BaseRecipeAttrMixClearViewSet.as_view Tag (TagSerializer s)
              pagination a request db
        | IngredientNoMixViewSet =>
            BaseRecipeAttrMixClearViewSet.as_view Ingredient
              (IngredientSerializer s) pagination a request db
        | RecipeViewSet => RecipeViewSet.as_view s pagination a request db
        end
      else Unhandled (AttributeError (class_name v))
  end.

End recipe_views.

(** ** [user/views.py] *)
Module user_views.
Import rest_framework.

(** The classes of [user/serializers.py] the embedded views name. *)
Record serializers := {
  UserSerializer : Serializer User;
  ListUserSerializer : Serializer User
}.

(** Manage the authenticated user ([generics.RetrieveUpdateAPIView]). *)
Module ManageUserView.
Section view.
Context (s : serializers).

Definition authentication_classes := [TokenAuthentication].
Definition permission_classes := [IsAuthenticated].

(** Retrieve and return the authenticated user. *)
Definition get_object (user : principal) (request : Request) (db : DB)
  : result (instance User) :=
  request_user user.

(** The view has no [queryset]: the inherited [get_queryset]
    asserts there is one.  No filter backend is configured. *)
Definition self : GenericAPIView User :=
  {| rest_framework.get_queryset := fun _ _ _ => Raise AssertionError;
     rest_framework.filter_queryset := fun _ _ queryset => Ok queryset;
     rest_framework.get_object := get_object;
     rest_framework.get_serializer := UserSerializer s;
     rest_framework.paginator := None |}.

(** [get], [put] and [patch] of [RetrieveUpdateAPIView]. *)
Definition handler (user : principal) (request : Request) (db : DB)
  : result (Response * DB) :=
  match method request with
  | GET => mixins.retrieve self user request db
  | PUT => mixins.update self false user request db
  | PATCH => mixins.partial_update self user request db
  | _ => Raise (MethodNotAllowed (method request))
  end.

Definition as_view (request : Request) (db : DB) : outcome :=
  dispatch authentication_classes permission_classes handler request db.

End view.
End ManageUserView.

(** The same view written over [APIView]. *)
Module ManageUserApiView.
Section view.
Context (s : serializers).

Definition serializer_class : Serializer User := UserSerializer s.
Definition authentication_classes := [TokenAuthentication].
Definition permission_classes := [IsAuthenticated].

Definition get (user : principal) (request : Request) (db : DB)
  : result (Response * DB) :=
  user ← request_user user;
  Ok ({| status := HTTP_200_OK;
         body := to_representation (UserSerializer s) user |}, db).

Definition put (user : principal) (request : Request) (db : DB)
  : result (Response * DB) :=
  user ← request_user user;
  match run_validation serializer_class false user (data request) with
  | Invalid errors => Raise (ValidationError errors)
  | Valid validated_data =>
      let '(user', db') :=
        Serializer_save serializer_class user validated_data db in
      Ok ({| status := HTTP_200_OK;
             body := to_representation serializer_class user' |}, db')
  end.

Definition patch (user : principal) (request : Request) (db : DB)
  : result (Response * DB) :=
  user ← request_user user;
  match run_validation serializer_class true user (data request) with
  | Invalid errors => Raise (ValidationError errors)
  | Valid validated_data =>
      let '(user', db') :=
        Serializer_save serializer_class user validated_data db in
      Ok ({| status := HTTP_200_OK;
             body := to_representation serializer_class user' |}, db')
  end.

Definition handler (user : principal) (request : Request) (db : DB)
  : result (Response * DB) :=
  match method request with
  | GET => get user request db
  | PUT => put user request db
  | PATCH => patch user request db
  | _ => Raise (MethodNotAllowed (method request))
  end.

Definition as_view (request : Request) (db : DB) : outcome :=
  dispatch authentication_classes permission_classes handler request db.

End view.
End ManageUserApiView.

(** The view names no authentication or permission classes: the
    settings' defaults apply. *)
Module ListAllUsersApiView.
Section view.
Context (settings : api_settings) (s : serializers).

Definition get (user : principal) (request : Request) (db : DB)
  : result (Response * DB) :=
  let queryset : QuerySet.t User := QuerySet.all db in
  let serializer := ListUserSerializer s in
  Ok ({| status := HTTP_200_OK;
         body := many serializer (QuerySet.evaluate queryset) |}, db).

Definition handler (user : principal) (request : Request) (db : DB)
  : result (Response * DB) :=
  match method request with
  | GET => get user request db
  | _ => Raise (MethodNotAllowed (method request))
  end.

Definition as_view (request : Request) (db : DB) : outcome :=
  dispatch (DEFAULT_AUTHENTICATION_CLASSES settings)
    (DEFAULT_PERMISSION_CLASSES settings) handler request db.

End view.
End ListAllUsersApiView.

End user_views.

(** ** [user/urls.py] *)
Module user_urls.

Inductive view :=
| CreateUserView
| CreateUserApiView
| CreateTokenView
| ManageUserView
| ManageUserApiView
| ListAllUsersApiView.

Definition app_name : string := "user".

(** Route, view and name of every pattern. *)
Definition urlpatterns : list (string * view * string) :=
  [("create/", CreateUserView, "create");
   ("create-gapi-view/", CreateUserApiView, "create_gapi_view");
   ("token/", CreateTokenView, "token");
   ("me/", ManageUserView, "me");
   ("me-api-view/", ManageUserApiView, "me_api_view");
   ("list-users", ListAllUsersApiView, "all_users")].

(** The view the first matching pattern names, for a path under the
    application's prefix. *)
Definition resolve (path : string) : option view :=
  (fun m => m.2.1.2) <$> list_find (fun p => p.1.1 = path) urlpatterns.

(** The embedded views, as the patterns serve them. *)
Definition serve (settings : rest_framework.api_settings)
    (s : user_views.serializers) (v : view)
  : option (Request -> DB -> rest_framework.outcome) :=
  match v with
  | ManageUserView => Some (user_views.ManageUserView.as_view s)
  | ManageUserApiView => Some (user_views.ManageUserApiView.as_view s)
  | ListAllUsersApiView =>
      Some (user_views.ListAllUsersApiView.as_view settings s)
  | _ => None
  end.

End user_urls.

(** ** Creating rows *)

Definition HTTP_201_CREATED : Z := 201.

(** [d.get(key)] on a parsed object: of several entries under one key
    the last counts. *)
Definition dict_get (key : string) (d : json) : option json :=
  match d with
  | JObj fields => last (snd <$> filter (fun kv => kv.1 = key) fields)
  | _ => None
  end.

(** The merged dictionary [{**d, **kwargs}]. *)
Definition dict_update (d : json) (kwargs : list (string * json)) : json :=
  match d with
  | JObj fields => JObj (fields ++ kwargs)
  | _ => JObj kwargs
  end.

(** What a serializer class does with the payload of a new instance.
    The serializer modules are not among the sources: the views are
    embedded over any. *)
Record Creation (A : Type) := {
  (** [is_valid()] of [Serializer(data=...)] *)
  run_validation_new : json -> validation;
  (** [create(validated_data)]: the stored instance and the database
      with it *)
  create : json -> DB -> result (instance A * DB)
}.
Arguments run_validation_new {A} _ _.
Arguments create {A} _ _ _.

(** [serializer.save] with keyword arguments, of a serializer with no
    instance: the keyword arguments are merged into the validated data. *)
Definition Serializer_create {A} (c : Creation A) (validated_data : json)
    (kwargs : list (string * json)) (db : DB) : result (instance A * DB) :=
  create c (dict_update validated_data kwargs) db.

Module CreateModelMixin.
Section mixin.
Context {A : Type} (serializer : Serializer A) (creation : Creation A).

(** [CreateModelMixin.perform_create] *)
Definition perform_create (user : rest_framework.principal)
    (request : Request) (validated_data : json) (db : DB)
  : result (instance A * DB) :=
  Serializer_create creation validated_data [] db.

(** [CreateModelMixin.create], over the view's [perform_create] *)
Definition create
    (perform_create : rest_framework.principal -> Request -> json -> DB
                      -> result (instance A * DB))
    (user : rest_framework.principal) (request : Request) (db : DB)
  : result (Response * DB) :=
  match run_validation_new creation (data request) with
  | Invalid errors => Raise (ValidationError errors)
  | Valid validated_data =>
      created ← perform_create user request validated_data db;
      Ok ({| status := HTTP_201_CREATED;
             body := to_representation serializer created.1 |}, created.2)
  end.

End mixin.
End CreateModelMixin.

(** The views of [user/views.py] that create users and tokens. *)
Module user_create.
Import rest_framework user_views.

(** Create a new user in the system ([generics.CreateAPIView]): [post]
    is the mixin's [create]. *)
Module CreateUserView.
Section view.
Context (settings : api_settings) (s : serializers)
        (creation : Creation User).

Definition serializer_class : Serializer User := UserSerializer s.

Definition handler (user : principal) (request : Request) (db : DB)
  : result (Response * DB) :=
  match method request with
  | POST =>
      CreateModelMixin.create serializer_class creation
        (CreateModelMixin.perform_create creation) user request db
  | _ => Raise (MethodNotAllowed (method request))
  end.

Definition as_view (request : Request) (db : DB) : outcome :=
  dispatch (DEFAULT_AUTHENTICATION_CLASSES settings)
    (DEFAULT_PERMISSION_CLASSES settings) handler request db.

End view.
End CreateUserView.

(** Create a new user in the system.  Same as above, but explicit. *)
Module CreateUserApiView.
Section view.
Context (settings : api_settings) (s : serializers)
        (creation : Creation User).

Definition serializer_class : Serializer User := UserSerializer s.

Definition create (user : principal) (request : Request) (db : DB)
  : result (Response * DB) :=
  CreateModelMixin.create serializer_class creation
    (CreateModelMixin.perform_create creation) user request db.

Definition post (user : principal) (request : Request) (db : DB)
  : result (Response * DB) :=
  create user request db.

Definition handler (user : principal) (request : Request) (db : DB)
  : result (Response * DB) :=
  match method request with
  | POST => post user request db
  | _ => Raise (MethodNotAllowed (method request))
  end.

Definition as_view (request : Request) (db : DB) : outcome :=
  dispatch (DEFAULT_AUTHENTICATION_CLASSES settings)
    (DEFAULT_PERMISSION_CLASSES settings) handler request db.

End view.
End CreateUserApiView.

(** Create a new auth token for user ([ObtainAuthToken]). *)
Module CreateTokenView.

(** What [AuthTokenSerializer] does with a payload: its errors, or the
    key of the user under [validated_data['user']].  The class is not
    among the sources. *)
Record AuthTokenSerializer := {
  validate_credentials : json -> DB -> json + Z
}.

(** What a request for a token ends in: a database integrity error is
    none of the exceptions of the other views. *)
Inductive token_outcome :=
| TokenResponded (r : Response) (db' : DB)
| TokenUnhandled (e : exn)
| TokenIntegrityError.

(** [Token.objects.get_or_create(user=user)]: the user's token, or a new
    one under the key [drawn] that [generate_key] draws at random; a key
    is the primary key of its token. *)
Definition Token_get_or_create (drawn : string) (user : Z) (db : DB)
  : token_outcome + string * DB :=
  match filter (fun kv => kv.2 = user) (map_to_list (tokens db)) with
  | [] =>
      match tokens db !! drawn with
      | Some _ => inl TokenIntegrityError
      | None => inr (drawn, set_users (users db) (<[drawn := user]> (tokens db)) db)
      end
  | [token] => inr (token.1, db)
  | _ => inl (TokenUnhandled MultipleObjectsReturned)
  end.

Section view.
Context (settings : api_settings) (serializer_class : AuthTokenSerializer)
        (drawn : string).

(** [ObtainAuthToken.post] *)
Definition post (request : Request) (db : DB) : token_outcome :=
  match validate_credentials serializer_class (data request) db with
  | inl errors =>
      TokenResponded {| status := HTTP_400_BAD_REQUEST; body := errors |} db
  | inr user =>
      match Token_get_or_create drawn user db with
      | inl failure => failure
      | inr (key, db') =>
          TokenResponded
            {| status := HTTP_200_OK; body := JObj [("token", JStr key)] |}
            db'
      end
  end.

(** The view names no permission class of its own and inherits an empty
    list of them; authentication is the settings'. *)
Definition as_view (request : Request) (db : DB) : token_outcome :=
  match initial (DEFAULT_AUTHENTICATION_CLASSES settings) [] request db with
  | Raise e =>
      match exception_handler (DEFAULT_AUTHENTICATION_CLASSES settings) e with
      | Some r => TokenResponded r db
      | None => TokenUnhandled e
      end
  | Ok _ =>
      match method request with
      | POST => post request db
      | m =>
          match exception_handler (DEFAULT_AUTHENTICATION_CLASSES settings)
                  (MethodNotAllowed m) with
          | Some r => TokenResponded r db
          | None => TokenUnhandled (MethodNotAllowed m)
          end
      end
  end.

End view.
End CreateTokenView.

End user_create.

(** [reverse('user:name')]: the route of the pattern of that name. *)
Definition user_urls_reverse (name : string) : option string :=
  (fun m => m.2.1.1) <$> list_find (fun p => p.2 = name) user_urls.urlpatterns.

(** ** A small database and its requests, for the examples *)
Module Sample.
Import rest_framework.

Definition alice : instance User :=
  (1, {| email := "alice@example.com"; password := "pw-a"; is_active := true |}).

Definition bob : instance User :=
  (2, {| email := "bob@example.com"; password := "pw-b"; is_active := true |}).

Definition soup : Recipe :=
  {| recipe_user := 1; title := "Soup"; description := "warm";
     time_minutes := 5; price := 300; image := None |}.

Definition cake : Recipe :=
  {| recipe_user := 1; title := "Cake"; description := "sweet";
     time_minutes := 50; price := 100; image := None |}.

Definition stew : Recipe :=
  {| recipe_user := 2; title := "Stew"; description := "slow";
     time_minutes := 90; price := 700; image := None |}.

Definition vegan : Attr := {| attr_user := 1; name := "vegan" |}.
Definition dessert : Attr := {| attr_user := 1; name := "dessert" |}.
Definition spare : Attr := {| attr_user := 1; name := "spare" |}.
Definition quick : Attr := {| attr_user := 2; name := "quick" |}.
Definition salt : Attr := {| attr_user := 1; name := "salt" |}.

(** Alice owns recipes 1 and 2 and tags 1, 2 and 3; tag 3 is on no
    recipe.  Bob owns recipe 3 and tag 4. *)
Definition db : DB :=
  {| users := {[ 1 := alice.2; 2 := bob.2 ]};
     tokens := {[ "key-a" := 1; "key-b" := 2 ]};
     recipes := {[ 1 := soup; 2 := cake; 3 := stew ]};
     tags := {[ 1 := vegan; 2 := dessert; 3 := spare; 4 := quick ]};
     ingredients := {[ 1 := salt ]};
     recipe_tags := [(1, 1); (1, 2); (2, 2); (3, 4)];
     recipe_ingredients := [(1, 1)] |}.

Definition request (m : Method) (key : string)
    (q : list (string * string)) (body : json) (pk : string) : Request :=
  {| method := m; auth_token := Some key; query_params := q;
     data := body; pk := pk |}.

Definition anonymous (m : Method) : Request :=
  {| method := m; auth_token := None; query_params := [];
     data := JNull; pk := "" |}.

Definition field (f : string) (d : json) : option json :=
  match d with
  | JObj fields => snd <$> head (filter (fun kv => kv.1 = f) fields)
  | _ => None
  end.

(** A serializer of tags and ingredients with the one field [name]:
    required unless the update is partial, and not blank. *)
Definition attr_serializer : Serializer Attr :=
  {| run_validation partial _ d :=
       match field "name" d with
       | Some (JStr "") =>
           Invalid (JObj [("name", JList [JStr "This field may not be blank."])])
       | Some (JStr n) => Valid (JObj [("name", JStr n)])
       | Some _ => Invalid (JObj [("name", JList [JStr "Not a valid string."])])
       | None =>
           if partial then Valid (JObj [])
           else Invalid (JObj [("name", JList [JStr "This field is required."])])
       end;
     update_fields a v :=
       match field "name" v with
       | Some (JStr n) => {| attr_user := attr_user a; name := n |}
       | _ => a
       end;
     to_representation x :=
       JObj [("id", JNum x.1); ("name", JStr (name x.2))] |}.

Definition recipe_serializer : Serializer Recipe :=
  {| run_validation _ _ d :=
       match field "title" d with
       | Some (JStr t) => Valid (JObj [("title", JStr t)])
       | _ => Invalid (JObj [("title", JList [JStr "This field is required."])])
       end;
     update_fields r v :=
       match field "title" v with
       | Some (JStr t) =>
           {| recipe_user := recipe_user r; title := t;
              description := description r; time_minutes := time_minutes r;
              price := price r; image := image r |}
       | _ => r
       end;
     to_representation x :=
       JObj [("id", JNum x.1); ("title", JStr (title x.2))] |}.

(** A serializer of the one field [image]: a payload that names an
    uploaded image file is valid. *)
Definition image_serializer : Serializer Recipe :=
  {| run_validation _ _ d :=
       match field "image" d with
       | Some (JObj [("image_file", JStr path)]) =>
           Valid (JObj [("image", JStr path)])
       | _ =>
           Invalid (JObj [("image",
             JList [JStr "Upload a valid image."])])
       end;
     update_fields r v :=
       match field "image" v with
       | Some (JStr path) =>
           {| recipe_user := recipe_user r; title := title r;
              description := description r; time_minutes := time_minutes r;
              price := price r; image := Some path |}
       | _ => r
       end;
     to_representation x :=
       JObj [("id", JNum x.1);
             ("image", match image x.2 with
                       | Some path => JStr path
                       | None => JNull
                       end)] |}.

Definition user_serializer : Serializer User :=
  {| run_validation partial _ d :=
       match field "email" d with
       | Some (JStr e) => Valid (JObj [("email", JStr e)])
       | Some _ => Invalid (JObj [("email", JList [JStr "Enter a valid email address."])])
       | None =>
           if partial then Valid (JObj [])
           else Invalid (JObj [("email", JList [JStr "This field is required."])])
       end;
     update_fields u v :=
       match field "email" v with
       | Some (JStr e) =>
           {| email := e; password := password u; is_active := is_active u |}
       | _ => u
       end;
     to_representation x := JObj [("email", JStr (email x.2))] |}.

Definition recipe_serializers : recipe_views.serializers :=
  {| recipe_views.RecipeSerializer := recipe_serializer;
     recipe_views.RecipeDetailSerializer := recipe_serializer;
     recipe_views.RecipeImageSerializer := image_serializer;
     recipe_views.TagSerializer := attr_serializer;
     recipe_views.IngredientSerializer := attr_serializer |}.

Definition user_serializers : user_views.serializers :=
  {| user_views.UserSerializer := user_serializer;
     user_views.ListUserSerializer := user_serializer |}.

(** A number field for the examples: it reads an item of decimal digits
    as its number and the empty item as the empty value, and has the
    message of the library's field for anything else. *)
Definition number_field : django_filters.NumberField :=
  fun item =>
    if decide (item = "") then inr None
    else if forallb (fun c => bool_decide (is_Some (Py.digit c)))
              (list_ascii_of_string item)
         then inr (Py.digits 0 false item)
         else inl ["Enter a number."].

End Sample.

(** A serializer of credentials and a database, for the examples. *)
Module Sample_create.

(** Credentials are an email and the password stored with it. *)
Definition auth_token_serializer : user_create.CreateTokenView.AuthTokenSerializer :=
  {| user_create.CreateTokenView.validate_credentials d db :=
       match dict_get "email" d, dict_get "password" d with
       | Some (JStr e), Some (JStr pw) =>
           match filter (fun kv => email kv.2 = e /\ password kv.2 = pw
                                   /\ is_active kv.2 = true)
                   (map_to_list (users db)) with
           | kv :: _ => inr kv.1
           | [] =>
               inl (JObj [("non_field_errors",
                           JList [JStr "Unable to authenticate with provided credentials."])])
           end
       | _, _ =>
           inl (JObj [("email", JList [JStr "This field is required."])])
       end |}.

(** The sample database without Bob's token. *)
Definition db_without_bobs_token : DB :=
  set_users (users Sample.db) {[ "key-a" := 1 ]} Sample.db.

End Sample_create.

(** No user has two tokens (the one-to-one relation of tokens and
    users). *)
Definition tokens_one_per_user (db : DB) : Prop :=
  forall k1 k2 user,
    tokens db !! k1 = Some user -> tokens db !! k2 = Some user -> k1 = k2.

(** ** Vocabulary of the properties *)

(** The requester the token authentication finds for a request. *)
Definition authenticates (db : DB) (request : Request) (u : instance User)
  : Prop :=
  rest_framework.perform_authentication
    [rest_framework.TokenAuthentication] request db = Ok (Some u).

(** A tag or ingredient attached to at least one recipe. *)
Definition attached (model : AttrModel) (db : DB) (x : instance Attr) : Prop :=
  exists recipe, (recipe, x.1) ∈ attr_links model db.

(** A recipe with a link, in the link table [links], to one of the keys
    of a cleaned filter value (no value, or a blank one: no condition). *)
Definition linked (links : list (Z * Z)) (value : option (list (option Z)))
    (x : instance Recipe) : Prop :=
  match value with
  | None | Some [] => True
  | Some values => exists k, (x.1, k) ∈ links /\ Some k ∈ values
  end.

(** * Properties *)

(** ** Python built-ins, on examples *)

Example int_of_str_examples :
  Py.int_of_str "1" = Some 1 /\ Py.int_of_str " -12 " = Some (-12) /\
  Py.int_of_str "1_0" = Some 10 /\ Py.int_of_str "true" = None /\
  Py.int_of_str "" = None /\ Py.int_of_str "1__0" = None /\
  Py.int_of_str "_1" = None /\ Py.int_of_str "1_" = None /\
  Py.int_of_str (String (ascii_of_nat 28) "1") = None /\
  Py.int_of_str (String (ascii_of_nat 160) "1") = Some 1.
Proof. repeat split; reflexivity. Qed.

Example split_examples :
  Py.split "," "1,2" = ["1"; "2"] /\ Py.split "," "" = [""] /\
  Py.split "," "a,,b" = ["a"; ""; "b"].
Proof. repeat split; reflexivity. Qed.

Example clean_csv_examples :
  let clean_csv := django_filters.clean_csv (NF := Sample.number_field) in
  clean_csv (Some "1,2") = inr (Some [Some 1; Some 2]) /\
  clean_csv (Some "") = inr (Some []) /\
  clean_csv (Some "1,,2") = inr (Some [Some 1; None; Some 2]) /\
  clean_csv (Some "1,x") = inl ["Enter a number."] /\
  clean_csv None = inr None.
Proof. repeat split; reflexivity. Qed.

(** ** Querysets *)
Section queryset_facts.
Context {A : Type} {HM : Model A}.
Implicit Types qs : QuerySet.t A.

Lemma elem_of_evaluate qs x :
  x ∈ QuerySet.evaluate qs <-> x ∈ QuerySet.rows qs.
Proof.
  unfold QuerySet.evaluate. rewrite merge_sort_Permutation.
  destruct (QuerySet.is_distinct qs); [apply elem_of_remove_dups|done].
Qed.

Lemma NoDup_evaluate qs :
  QuerySet.is_distinct qs = true -> NoDup (QuerySet.evaluate qs).
Proof.
  intros Hd. unfold QuerySet.evaluate. rewrite merge_sort_Permutation, Hd.
  apply NoDup_remove_dups.
Qed.

Lemma elem_of_rows_filter P qs x :
  x ∈ QuerySet.rows (QuerySet.filter P qs)
  <-> x ∈ QuerySet.rows qs /\ P x = true.
Proof. simpl. rewrite list_elem_of_filter. tauto. Qed.

Lemma elem_of_rows_filter_join {B} (joined : instance A -> list B) P qs x :
  x ∈ QuerySet.rows (QuerySet.filter_join joined P qs)
  <-> x ∈ QuerySet.rows qs /\ exists b, b ∈ joined x /\ P x b = true.
Proof.
  simpl. rewrite list_elem_of_bind. split.
  - intros (r & Hx & Hr). apply list_elem_of_fmap in Hx as (b & -> & Hb).
    apply list_elem_of_filter in Hb as [HP Hb]. eauto.
  - intros (Hx & b & Hb & HP). exists x. split; [|done].
    apply list_elem_of_fmap. exists b. split; [done|].
    apply list_elem_of_filter. done.
Qed.

Lemma elem_of_rows_all db x :
  x ∈ QuerySet.rows (QuerySet.all db) <-> objects db !! x.1 = Some x.2.
Proof. simpl. destruct x as [k v]. apply elem_of_map_to_list. Qed.

End queryset_facts.

(** ** Authentication and dispatch *)
Section dispatch_facts.
Import rest_framework.

Lemma authenticated_initial db request u :
  authenticates db request u ->
  initial [TokenAuthentication] [IsAuthenticated] request db = Ok (Some u).
Proof. unfold authenticates, initial. intros ->. reflexivity. Qed.

(** A token of the token table, for an active user, authenticates. *)
Lemma token_authenticates db request key uid u :
  auth_token request = Some key -> tokens db !! key = Some uid ->
  users db !! uid = Some u -> is_active u = true ->
  authenticates db request (uid, u).
Proof.
  intros Hk Ht Hu Ha. unfold authenticates. simpl.
  rewrite Hk, Ht, Hu, Ha. reflexivity.
Qed.

Lemma dispatch_authenticated db request u handler :
  authenticates db request u ->
  dispatch [TokenAuthentication] [IsAuthenticated] handler request db =
  match handler (Some u) request db with
  | Ok (r, db') => Responded r db'
  | Raise e =>
      match exception_handler [TokenAuthentication] e with
      | Some r => Responded r db
      | None => Unhandled e
      end
  end.
Proof.
  intros Hu. unfold dispatch. rewrite (authenticated_initial _ _ _ Hu).
  reflexivity.
Qed.

End dispatch_facts.

(** ** The two families of tag and ingredient viewsets *)
Section attr_claims.
Import rest_framework recipe_views.

(** C3.  On every request, for every action, requester, serializer and
    pagination, the mixin-based viewset and the hand-written one give
    the same outcome: the same response (status and body) and the same
    database, or the same unhandled exception. *)
Theorem mixin_and_handwritten_viewsets_agree (model : AttrModel)
    (serializer : Serializer Attr) (pagination : option Paginator)
    (a : action) (request : Request) (db : DB) :
  BaseRecipeAttrViewSet.as_view model serializer pagination a request db =
  BaseRecipeAttrMixClearViewSet.as_view model serializer pagination a
    request db.
Proof.
  unfold BaseRecipeAttrViewSet.as_view,
    BaseRecipeAttrMixClearViewSet.as_view.
  destruct a; reflexivity.
Qed.

End attr_claims.

(** ** The filter set of the recipe viewset *)
Section recipe_claims.
Import rest_framework recipe_views django_filters.
Context {NF : NumberField}.

(** C1, on the code.  The class body of the recipe viewset reads
    [my_filters.RecipeViewSetFilter]; the filters module binds
    [RecipeFilter] and no [RecipeViewSetFilter], so the attribute access
    raises and no request to the viewset is answered, whatever its
    parameters. *)
Theorem recipe_filterset_class_is_unbound (s : serializers)
    (pagination : option Paginator) (a : action) (request : Request)
    (db : DB) :
  recipe_filters.getattr "RecipeFilter" = Ok recipe_filters.RecipeFilter /\
  RecipeViewSet.filterset_class
    = Raise (AttributeError "RecipeViewSetFilter") /\
  RecipeViewSet.as_view s pagination a request db
    = Unhandled (AttributeError "RecipeViewSetFilter").
Proof. done. Qed.

End recipe_claims.

(** ** The module as it is imported *)
Section import_facts.
Import rest_framework recipe_views django_filters.
Context {NF : NumberField}.

Lemma import_module_raises :
  import_module = Raise (AttributeError "RecipeViewSetFilter").
Proof. reflexivity. Qed.

(** The first class statement raises, so the import binds no class: the
    viewsets defined further down are lost with the recipe viewset. *)
Lemma view_raises v s pagination a request db :
  view v s pagination a request db
    = Unhandled (AttributeError "RecipeViewSetFilter").
Proof. reflexivity. Qed.

Lemma view_never_responds v s pagination a request db r db' :
  view v s pagination a request db <> Responded r db'.
Proof. by rewrite view_raises. Qed.

End import_facts.

Section import_claims.
Import rest_framework recipe_views django_filters.
Context {NF : NumberField}.

(** C2, on the code.  Alice lists her recipes and her tags, and Bob
    updates Alice's tag 1 and reads her recipe 1: each request ends in
    the [AttributeError] of the import.  The owner is returned no list,
    and the other user is answered no 404; no request to a viewset of the
    module gets a response. *)
Theorem owner_scoped_requests_raise_at_import :
  let raised := Unhandled (AttributeError "RecipeViewSetFilter") in
  view RecipeViewSet Sample.recipe_serializers None Act_list
    (Sample.request GET "key-a" [] JNull "") Sample.db = raised /\
  view TagViewSet Sample.recipe_serializers None Act_list
    (Sample.request GET "key-a" [] JNull "") Sample.db = raised /\
  view TagViewSet Sample.recipe_serializers None Act_update
    (Sample.request PUT "key-b" [] (JObj [("name", JStr "mine")]) "1")
    Sample.db = raised /\
  view RecipeViewSet Sample.recipe_serializers None Act_retrieve
    (Sample.request GET "key-b" [] JNull "1") Sample.db = raised /\
  forall v s pagination a request db,
    view v s pagination a request db = raised /\
    forall r db', view v s pagination a request db <> Responded r db'.
Proof.
  intros raised. do 4 (split; [reflexivity|]).
  intros v s pagination a request db. split; [apply view_raises|].
  intros r db'. apply view_never_responds.
Qed.

(** C4, on the code.  Alice owns the tags 1 and 2, attached to recipes,
    and the tag 3, attached to none.  Her list request with
    [assigned_only=1] ends in the [AttributeError] of the import, and so
    does every list request to a tag or ingredient viewset, with or
    without the parameter: none is answered with a list. *)
Theorem assigned_only_list_raises_at_import :
  let raised := Unhandled (AttributeError "RecipeViewSetFilter") in
  (attached Tag Sample.db (1, Sample.vegan) /\
   attached Tag Sample.db (2, Sample.dessert) /\
   ~ attached Tag Sample.db (3, Sample.spare)) /\
  view TagViewSet Sample.recipe_serializers None Act_list
    (Sample.request GET "key-a" [("assigned_only", "1")] JNull "")
    Sample.db = raised /\
  forall s pagination request db,
    view TagViewSet s pagination Act_list request db = raised /\
    view IngredientViewSet s pagination Act_list request db = raised /\
    view TagNoMixViewSet s pagination Act_list request db = raised /\
    view IngredientNoMixViewSet s pagination Act_list request db = raised.
Proof.
  intros raised. split.
  { split; [exists 1; simpl; rewrite !elem_of_cons; by left|].
    split; [exists 1; simpl; rewrite !elem_of_cons; by right; left|].
    intros [recipe Hl]. simpl in Hl.
    rewrite !elem_of_cons, elem_of_nil in Hl. intuition congruence. }
  split; [reflexivity|]. intros s pagination request db.
  repeat split; apply view_raises.
Qed.


(** C7, on the code.  Alice posts an image to the upload action of her
    recipe 1, and then a payload that is no image: both requests end in
    the [AttributeError] of the import.  Nothing is validated, nothing is
    stored, and neither 200 nor 400 is answered. *)
Theorem upload_image_raises_at_import :
  let raised := Unhandled (AttributeError "RecipeViewSetFilter") in
  recipes Sample.db !! 1 = Some Sample.soup /\
  recipe_user Sample.soup = Sample.alice.1 /\
  view RecipeViewSet Sample.recipe_serializers None Act_upload_image
    (Sample.request POST "key-a" []
       (JObj [("image", JObj [("image_file", JStr "soup.jpg")])]) "1")
    Sample.db = raised /\
  view RecipeViewSet Sample.recipe_serializers None Act_upload_image
    (Sample.request POST "key-a" [] (JObj [("image", JStr "notanimage")])
       "1") Sample.db = raised /\
  forall s pagination request db r db',
    view RecipeViewSet s pagination Act_upload_image request db
      <> Responded r db'.
Proof.
  intros raised. do 4 (split; [reflexivity|]).
  intros s pagination request db r db'. apply view_never_responds.
Qed.

(** C9, on the code.  [int] reads [2] and [-1] as nonzero integers and
    raises [ValueError] on [abc]; the list requests of a tag viewset with
    these values of [assigned_only] all end in the [AttributeError] of
    the import.  The nonzero values restrict no list, and the exception
    of the third request is not the one [int] raises. *)
Theorem assigned_only_values_raise_at_import :
  let raised := Unhandled (AttributeError "RecipeViewSetFilter") in
  let list_with value :=
    view TagViewSet Sample.recipe_serializers None Act_list
      (Sample.request GET "key-a" [("assigned_only", value)] JNull "")
      Sample.db in
  (Py.int (Py.Str "2") = Ok 2 /\ Py.int (Py.Str "-1") = Ok (-1) /\
   Py.int (Py.Str "abc") = Raise ValueError) /\
  list_with "2" = raised /\ list_with "-1" = raised /\
  list_with "abc" = raised /\ list_with "abc" <> Unhandled ValueError /\
  forall value s pagination db,
    view TagViewSet s pagination Act_list
      (Sample.request GET "key-a" [("assigned_only", value)] JNull "") db
    = raised /\
    view TagNoMixViewSet s pagination Act_list
      (Sample.request GET "key-a" [("assigned_only", value)] JNull "") db
    = raised.
Proof.
  intros raised list_with. split; [done|].
  do 3 (split; [reflexivity|]). split; [done|].
  intros value s pagination db. split; apply view_raises.
Qed.

(** C10, on the code.  The list written for [ordering_fields] holds the
    two strings [id] and [time_minutesprice], but the class body of the
    recipe viewset raises at [filterset_class], above it: list requests
    with [ordering=price] and [ordering=time_minutes] end in the
    [AttributeError] of the import.  No term is dropped and no rows are
    returned, in the order of [-id] or in any other. *)
Theorem recipe_ordering_requests_raise_at_import :
  let raised := Unhandled (AttributeError "RecipeViewSetFilter") in
  RecipeViewSet.ordering_fields = ["id"; "time_minutesprice"] /\
  view RecipeViewSet Sample.recipe_serializers None Act_list
    (Sample.request GET "key-a" [("ordering", "price")] JNull "")
    Sample.db = raised /\
  view RecipeViewSet Sample.recipe_serializers None Act_list
    (Sample.request GET "key-a" [("ordering", "time_minutes")] JNull "")
    Sample.db = raised /\
  forall param s pagination db r db',
    view RecipeViewSet s pagination Act_list
      (Sample.request GET "key-a" [("ordering", param)] JNull "") db
    <> Responded r db'.
Proof.
  intros raised. do 3 (split; [reflexivity|]).
  intros param s pagination db r db'. apply view_never_responds.
Qed.

End import_claims.

(** ** The user views *)
Section user_claims.
Import rest_framework user_views.

Lemma elem_of_all_users db (x : instance User) :
  x ∈ QuerySet.evaluate (QuerySet.all db) <-> users db !! x.1 = Some x.2.
Proof. by rewrite elem_of_evaluate, elem_of_rows_all. Qed.

Lemma NoDup_all_users db :
  NoDup (QuerySet.evaluate (QuerySet.all (A := User) db)).
Proof.
  unfold QuerySet.evaluate. simpl. rewrite merge_sort_Permutation.
  apply NoDup_map_to_list.
Qed.

(** C6.  [list-users] routes to [ListAllUsersApiView], which names no
    authentication and no permission class.  Its [get] answers any
    requester, the anonymous one included, with the serialization of
    every row of the user table; under the framework's default settings
    a GET is so answered whether or not the request carries a token,
    valid or not. *)
Theorem list_users_is_unrestricted (s : serializers) (request : Request)
    (db : DB) :
  method request = GET ->
  user_urls.resolve "list-users" = Some user_urls.ListAllUsersApiView /\
  user_urls.serve DEFAULTS s user_urls.ListAllUsersApiView
    = Some (ListAllUsersApiView.as_view DEFAULTS s) /\
  exists l,
    (forall x, x ∈ l <-> users db !! x.1 = Some x.2) /\ NoDup l /\
    (forall user,
       ListAllUsersApiView.get s user request db =
         Ok ({| status := HTTP_200_OK;
                body := many (ListUserSerializer s) l |}, db)) /\
    ListAllUsersApiView.as_view DEFAULTS s request db =
      Responded {| status := HTTP_200_OK;
                   body := many (ListUserSerializer s) l |} db.
Proof.
  intros Hm. split; [reflexivity|]. split; [reflexivity|].
  exists (QuerySet.evaluate (QuerySet.all db)).
  split; [apply elem_of_all_users|]. split; [apply NoDup_all_users|].
  split; [reflexivity|].
  unfold ListAllUsersApiView.as_view, dispatch, ListAllUsersApiView.handler.
  simpl. rewrite Hm. reflexivity.
Qed.

(** Without a token, and with a token no user has, Alice and Bob are
    listed. *)
Lemma list_users_is_unrestricted_witness :
  (exists l,
     ListAllUsersApiView.as_view DEFAULTS Sample.user_serializers
       (Sample.anonymous GET) Sample.db =
     Responded {| status := 200;
                  body := many Sample.user_serializer l |} Sample.db /\
     Sample.alice ∈ l /\ Sample.bob ∈ l) /\
  (exists l,
     ListAllUsersApiView.as_view DEFAULTS Sample.user_serializers
       (Sample.request GET "no-such-key" [] JNull "") Sample.db =
     Responded {| status := 200;
                  body := many Sample.user_serializer l |} Sample.db /\
     Sample.alice ∈ l /\ Sample.bob ∈ l).
Proof.
  split.
  - destruct (list_users_is_unrestricted Sample.user_serializers
      (Sample.anonymous GET) Sample.db eq_refl)
      as (_ & _ & l & Hin & _ & _ & Hview).
    exists l. split; [exact Hview|]. split; apply Hin; reflexivity.
  - destruct (list_users_is_unrestricted Sample.user_serializers
      (Sample.request GET "no-such-key" [] JNull "") Sample.db eq_refl)
      as (_ & _ & l & Hin & _ & _ & Hview).
    exists l. split; [exact Hview|]. split; apply Hin; reflexivity.
Defined.

(** C8.  A request with a valid token of user [uid] is served, by
    [me/] and by [me-api-view/], on that user's own row: it is the
    object the view works on, and no other user's row is.  GET returns
    its representation; PUT and PATCH validate the payload against it,
    store the update in its row and leave every other user's row as it
    was. *)
Theorem me_is_the_token_user (s : serializers) (request : Request)
    (db : DB) (key : string) (uid : Z) (u : User) :
  auth_token request = Some key -> tokens db !! key = Some uid ->
  users db !! uid = Some u -> is_active u = true ->
  let serializer := UserSerializer s in
  let updated partial :=
    match run_validation serializer partial (uid, u) (data request) with
    | Valid validated_data =>
        let u' := update_fields serializer u validated_data in
        Responded {| status := HTTP_200_OK;
                     body := to_representation serializer (uid, u') |}
          (save (uid, u') db)
    | Invalid errors =>
        Responded {| status := HTTP_400_BAD_REQUEST; body := errors |} db
    end in
  (user_urls.resolve "me/" = Some user_urls.ManageUserView /\
   user_urls.resolve "me-api-view/" = Some user_urls.ManageUserApiView) /\
  (initial ManageUserView.authentication_classes
     ManageUserView.permission_classes request db = Ok (Some (uid, u)) /\
   ManageUserView.get_object (Some (uid, u)) request db = Ok (uid, u) /\
   forall v : instance User, v.1 <> uid ->
     ManageUserView.get_object (Some (uid, u)) request db <> Ok v) /\
  (method request = GET ->
   ManageUserView.as_view s request db =
     Responded {| status := HTTP_200_OK;
                  body := to_representation serializer (uid, u) |} db /\
   ManageUserApiView.as_view s request db =
     ManageUserView.as_view s request db) /\
  (method request = PUT ->
   ManageUserView.as_view s request db = updated false /\
   ManageUserApiView.as_view s request db = updated false) /\
  (method request = PATCH ->
   ManageUserView.as_view s request db = updated true /\
   ManageUserApiView.as_view s request db = updated true) /\
  (forall partial r db', updated partial = Responded r db' ->
     forall vid, vid <> uid -> users db' !! vid = users db !! vid).
Proof.
  intros Hk Ht Hu Ha serializer updated.
  pose proof (token_authenticates db request key uid u Hk Ht Hu Ha) as Hauth.
  split; [done|]. split.
  { split; [by apply authenticated_initial|]. split; [done|].
    intros v Hv. simpl. intros [= <-]. done. }
  unfold ManageUserView.as_view, ManageUserApiView.as_view,
    ManageUserView.authentication_classes,
    ManageUserView.permission_classes,
    ManageUserApiView.authentication_classes,
    ManageUserApiView.permission_classes.
  rewrite !(dispatch_authenticated _ _ _ _ Hauth).
  unfold ManageUserView.handler, ManageUserApiView.handler.
  split; [|split; [|split]].
  - intros ->. done.
  - intros ->. unfold updated, serializer, mixins.update,
      ManageUserApiView.put, ManageUserApiView.serializer_class. simpl.
    destruct (run_validation _ _ _ _); done.
  - intros ->. unfold updated, serializer, mixins.partial_update,
      mixins.update, ManageUserApiView.patch,
      ManageUserApiView.serializer_class. simpl.
    destruct (run_validation _ _ _ _); done.
  - intros partial r db'. unfold updated.
    destruct (run_validation _ _ _ _); intros [= _ <-] vid Hvid; [|done].
    simpl. by rewrite lookup_insert_ne.
Qed.

(** Alice's token reads and updates Alice; Bob's row stays. *)
Lemma me_is_the_token_user_witness :
  ManageUserView.as_view Sample.user_serializers
    (Sample.request GET "key-a" [] JNull "") Sample.db =
  Responded {| status := 200;
               body := JObj [("email", JStr "alice@example.com")] |}
    Sample.db /\
  exists db',
    ManageUserApiView.as_view Sample.user_serializers
      (Sample.request PATCH "key-a" []
         (JObj [("email", JStr "al@example.com")]) "") Sample.db =
    Responded {| status := 200;
                 body := JObj [("email", JStr "al@example.com")] |} db' /\
    users db' !! 2 = Some Sample.bob.2.
Proof.
  split.
  - exact (proj1 (proj1 (proj2 (proj2 (me_is_the_token_user
      Sample.user_serializers (Sample.request GET "key-a" [] JNull "")
      Sample.db "key-a" 1 Sample.alice.2 eq_refl eq_refl eq_refl eq_refl)))
      eq_refl)).
  - eexists. split.
    + exact (proj2 (proj1 (proj2 (proj2 (proj2 (proj2 (me_is_the_token_user
        Sample.user_serializers
        (Sample.request PATCH "key-a" []
           (JObj [("email", JStr "al@example.com")]) "")
        Sample.db "key-a" 1 Sample.alice.2 eq_refl eq_refl eq_refl
        eq_refl))))) eq_refl)).
    + reflexivity.
Defined.

End user_claims.

(** ** The filter set of [recipe/filters.py] *)
Section recipe_filter_facts.
Import rest_framework recipe_views django_filters.
Implicit Types (qs : QuerySet.t Recipe).

Lemma related_keys_links db path links :
  (path = "tags__id" /\ links = recipe_tags db) \/
  (path = "ingredients__id" /\ links = recipe_ingredients db) ->
  exists keys, related_keys db path = Some keys /\
    forall (x : instance Recipe) k, k ∈ keys x <-> (x.1, k) ∈ links.
Proof.
  intros [[-> ->] | [-> ->]]; eexists; (split; [reflexivity|]);
    intros x k; rewrite list_elem_of_fmap; split.
  - intros ([r k'] & -> & Hl). apply list_elem_of_filter in Hl as [Hr Hl].
    simpl in *. by subst.
  - intros Hl. exists (x.1, k). split; [done|].
    by apply list_elem_of_filter.
  - intros ([r k'] & -> & Hl). apply list_elem_of_filter in Hl as [Hr Hl].
    simpl in *. by subst.
  - intros Hl. exists (x.1, k). split; [done|].
    by apply list_elem_of_filter.
Qed.

(** An [in] filter over a link table keeps the rows linked to one of
    the keys. *)
Lemma Filter_filter_links db path links value qs :
  (path = "tags__id" /\ links = recipe_tags db) \/
  (path = "ingredients__id" /\ links = recipe_ingredients db) ->
  exists qs',
    Filter_filter db {| field_name := path; lookup_expr := "in" |} value qs
      = Ok qs' /\
    QuerySet.is_distinct qs' = QuerySet.is_distinct qs /\
    QuerySet.order qs' = QuerySet.order qs /\
    forall x, x ∈ QuerySet.rows qs'
              <-> x ∈ QuerySet.rows qs /\ linked links value x.
Proof.
  intros Hpath. destruct (related_keys_links db path links Hpath)
    as (keys & Hkeys & Hin).
  unfold Filter_filter, linked.
  destruct value as [[|v values]|]; try (exists qs; by intuition).
  simpl. rewrite Hkeys. eexists. split; [reflexivity|].
  split; [done|]. split; [done|]. intros x.
  rewrite elem_of_rows_filter_join. split.
  - intros (Hx & k & Hk & Hv). split; [done|]. exists k.
    apply bool_decide_eq_true in Hv. by rewrite <- Hin.
  - intros (Hx & k & Hk & Hv). split; [done|]. exists k.
    rewrite Hin, bool_decide_eq_true. done.
Qed.

End recipe_filter_facts.

(** ** [RecipeFilter], on a queryset *)
Section recipe_filter_properties.
Import rest_framework django_filters.
Context {NF : NumberField}.

(** X1.  [RecipeFilter] (of [recipe/filters.py]), applied to a queryset of
    recipes.  When the values of [tags] and [ingredients] both clean, its
    form is valid and filtering keeps exactly the rows of
    the queryset linked to one of the tag keys (when [tags] is given and
    not blank) and to one of the ingredient keys (when [ingredients] is
    given and not blank): any key within a list, both conditions across
    the two.  DISTINCT and the order of the queryset stay as they are,
    so a queryset that is distinct gives every such recipe once. *)
Theorem RecipeFilter_keeps_linked_recipes (request : Request) (db : DB)
    (qs : QuerySet.t Recipe)
    (tag_ids ingredient_ids : option (list (option Z))) :
  clean_csv (QueryDict_get (query_params request) "tags") = inr tag_ids ->
  clean_csv (QueryDict_get (query_params request) "ingredients")
    = inr ingredient_ids ->
  errors recipe_filters.RecipeFilter request = [] /\
  exists qs',
    FilterSet_filter_queryset db recipe_filters.RecipeFilter request qs
      = Ok qs' /\
    QuerySet.is_distinct qs' = QuerySet.is_distinct qs /\
    QuerySet.order qs' = QuerySet.order qs /\
    (forall x, x ∈ QuerySet.evaluate qs' <->
       x ∈ QuerySet.rows qs /\
       linked (recipe_tags db) tag_ids x /\
       linked (recipe_ingredients db) ingredient_ids x) /\
    (QuerySet.is_distinct qs = true -> NoDup (QuerySet.evaluate qs')).
Proof.
  intros Ht Hi. split.
  { unfold errors, recipe_filters.RecipeFilter. simpl. by rewrite Ht, Hi. }
  unfold recipe_filters.RecipeFilter. cbn [FilterSet_filter_queryset].
  rewrite Ht, Hi.
  destruct (Filter_filter_links db "tags__id" (recipe_tags db) tag_ids qs)
    as (qs1 & -> & Hd1 & Ho1 & Hr1); [by left|].
  change (Ok ?a ≫= ?f) with (f a). cbv beta.
  destruct (Filter_filter_links db "ingredients__id" (recipe_ingredients db)
              ingredient_ids qs1)
    as (qs2 & -> & Hd2 & Ho2 & Hr2); [by right|].
  change (Ok ?a ≫= ?f) with (f a). cbv beta.
  exists qs2. split; [done|]. split; [congruence|]. split; [congruence|].
  split.
  - intros x. rewrite elem_of_evaluate, Hr2, Hr1. tauto.
  - intros Hd. apply NoDup_evaluate. congruence.
Qed.

(** The form is invalid as soon as one of the two values does not
    clean. *)
Lemma RecipeFilter_errors_inv (request : Request) :
  errors recipe_filters.RecipeFilter request = [] ->
  (exists tag_ids,
     clean_csv (QueryDict_get (query_params request) "tags") = inr tag_ids)
  /\ exists ingredient_ids,
       clean_csv (QueryDict_get (query_params request) "ingredients")
         = inr ingredient_ids.
Proof.
  unfold errors, recipe_filters.RecipeFilter. simpl.
  destruct (clean_csv (QueryDict_get _ "tags")); [done|].
  destruct (clean_csv (QueryDict_get _ "ingredients")); [done|]. eauto.
Qed.

End recipe_filter_properties.

Section recipe_filter_examples.
Import rest_framework django_filters.

(** All recipes of the sample database, made distinct, with [tags=1,2]:
    recipes 1 and 2 and not recipe 3, each once; with [ingredients=1] as
    well, recipe 1 and not recipe 2. *)
Lemma RecipeFilter_keeps_linked_recipes_witness :
  let all := QuerySet.distinct (QuerySet.all (A := Recipe) Sample.db) in
  (exists qs',
     FilterSet_filter_queryset (NF := Sample.number_field) Sample.db
       recipe_filters.RecipeFilter
       (Sample.request GET "key-a" [("tags", "1,2")] JNull "") all = Ok qs' /\
     (1, Sample.soup) ∈ QuerySet.evaluate qs' /\
     (2, Sample.cake) ∈ QuerySet.evaluate qs' /\
     ((3, Sample.stew) ∉ QuerySet.evaluate qs') /\
     NoDup (QuerySet.evaluate qs')) /\
  (exists qs',
     FilterSet_filter_queryset (NF := Sample.number_field) Sample.db
       recipe_filters.RecipeFilter
       (Sample.request GET "key-a" [("tags", "1,2"); ("ingredients", "1")]
          JNull "") all = Ok qs' /\
     (1, Sample.soup) ∈ QuerySet.evaluate qs' /\
     (2, Sample.cake) ∉ QuerySet.evaluate qs').
Proof.
  intros all.
  assert (Hall : forall k r, recipes Sample.db !! k = Some r ->
                             (k, r) ∈ QuerySet.rows all).
  { intros k r Hr. by apply elem_of_map_to_list. }
  split.
  - destruct (RecipeFilter_keeps_linked_recipes (NF := Sample.number_field)
      (Sample.request GET "key-a" [("tags", "1,2")] JNull "") Sample.db all
      (Some [Some 1; Some 2]) None eq_refl eq_refl)
      as (_ & qs' & Hqs & _ & _ & Hin & Hnodup).
    exists qs'. split; [exact Hqs|]. split.
    { apply Hin. split; [by apply Hall|]. split; [|done].
      exists 1. simpl. rewrite !elem_of_cons. auto. }
    split.
    { apply Hin. split; [by apply Hall|]. split; [|done].
      exists 2. simpl. rewrite !elem_of_cons. auto. }
    split; [|by apply Hnodup].
    intros Hx. apply Hin in Hx as (_ & (k & Hl & Hk) & _).
    simpl in Hl. rewrite !elem_of_cons, elem_of_nil in Hl.
    rewrite !elem_of_cons, elem_of_nil in Hk. intuition congruence.
  - destruct (RecipeFilter_keeps_linked_recipes (NF := Sample.number_field)
      (Sample.request GET "key-a" [("tags", "1,2"); ("ingredients", "1")]
         JNull "") Sample.db all
      (Some [Some 1; Some 2]) (Some [Some 1]) eq_refl eq_refl)
      as (_ & qs' & Hqs & _ & _ & Hin & _).
    exists qs'. split; [exact Hqs|]. split.
    { apply Hin. split; [by apply Hall|].
      split; exists 1; simpl; rewrite !elem_of_cons; auto. }
    intros Hx. apply Hin in Hx as (_ & _ & (k & Hl & Hk)).
    simpl in Hl. rewrite !elem_of_cons, elem_of_nil in Hl.
    intuition congruence.
Defined.

End recipe_filter_examples.

(** ** Requests without a valid token *)
Section unauthenticated_facts.
Import rest_framework user_views.

(** Token authentication with the [IsAuthenticated] permission: a request
    that authenticates nobody is answered 401 before the handler runs. *)
Lemma dispatch_unauthenticated db request handler :
  (forall u, ~ authenticates db request u) ->
  exists r,
    dispatch [TokenAuthentication] [IsAuthenticated] handler request db
      = Responded r db /\
    status r = HTTP_401_UNAUTHORIZED.
Proof.
  intros Hno. unfold dispatch, initial.
  assert (Hauth : perform_authentication [TokenAuthentication] request db
                    = Ok None
                  \/ exists d,
                       perform_authentication [TokenAuthentication] request db
                       = Raise (AuthenticationFailed d)).
  { unfold authenticates in Hno. simpl in *.
    destruct (auth_token request) as [key|]; [|by left].
    destruct (tokens db !! key) as [uid|]; [|right; eauto].
    destruct (users db !! uid) as [u|]; [|right; eauto].
    destruct (is_active u); [|right; eauto]. by destruct (Hno (uid, u)). }
  destruct Hauth as [-> | [d ->]]; simpl; eauto.
Qed.

(** X2.  The two views of the authenticated user, [ManageUserView] and
    [ManageUserApiView], name token authentication and the
    [IsAuthenticated] permission: a request that carries no token, an
    unknown token or the token of an inactive user is answered 401,
    whatever its method and payload, and the database is left as it
    was: no serializer runs. *)
Theorem me_views_reject_unauthenticated (s : serializers)
    (request : Request) (db : DB) :
  (forall u, ~ authenticates db request u) ->
  let refused (o : outcome) :=
    exists r, o = Responded r db /\ status r = HTTP_401_UNAUTHORIZED in
  refused (ManageUserView.as_view s request db) /\
  refused (ManageUserApiView.as_view s request db).
Proof.
  intros Hno refused. unfold refused. split.
  - exact (dispatch_unauthenticated db request (ManageUserView.handler s) Hno).
  - exact (dispatch_unauthenticated db request (ManageUserApiView.handler s)
             Hno).
Qed.

(** No token for a GET, an unknown token for a PUT: 401. *)
Lemma me_views_reject_unauthenticated_witness :
  (exists r,
     ManageUserView.as_view Sample.user_serializers (Sample.anonymous GET)
       Sample.db = Responded r Sample.db /\
     status r = 401) /\
  (exists r,
     ManageUserApiView.as_view Sample.user_serializers
       (Sample.request PUT "no-such-key" [] JNull "") Sample.db
       = Responded r Sample.db /\
     status r = 401).
Proof.
  split.
  - refine (proj1 (me_views_reject_unauthenticated Sample.user_serializers
      (Sample.anonymous GET) Sample.db _)).
    intros u Hu. discriminate Hu.
  - refine (proj2 (me_views_reject_unauthenticated Sample.user_serializers
      (Sample.request PUT "no-such-key" [] JNull "") Sample.db _)).
    intros u Hu. discriminate Hu.
Defined.

End unauthenticated_facts.

(** ** Creating users and tokens *)
Section user_create_properties.
Import rest_framework user_views user_create.

Lemma default_initial request db :
  initial (DEFAULT_AUTHENTICATION_CLASSES DEFAULTS)
    (DEFAULT_PERMISSION_CLASSES DEFAULTS) request db = Ok None.
Proof. reflexivity. Qed.

(** X12.  [CreateUserView] and its explicit twin [CreateUserApiView]
    give the same outcome on every request under every settings.  Under
    the framework's default settings a POST needs no token: an invalid
    payload is answered 400 with the serializer's errors and nothing is
    stored, a valid one 201 with the representation of the user the
    serializer created; any other method is answered 405. *)
Theorem create_user_views_agree (settings : api_settings) (s : serializers)
    (creation : Creation User) (request : Request) (db : DB) :
  CreateUserApiView.as_view settings s creation request db =
    CreateUserView.as_view settings s creation request db /\
  match method request with
  | POST =>
      CreateUserView.as_view DEFAULTS s creation request db =
        match run_validation_new creation (data request) with
        | Invalid errors =>
            Responded {| status := HTTP_400_BAD_REQUEST; body := errors |} db
        | Valid validated_data =>
            match Serializer_create creation validated_data [] db with
            | Ok (x, db') =>
                Responded
                  {| status := HTTP_201_CREATED;
                     body := to_representation (UserSerializer s) x |} db'
            | Raise e =>
                match exception_handler
                        (DEFAULT_AUTHENTICATION_CLASSES DEFAULTS) e with
                | Some r => Responded r db
                | None => Unhandled e
                end
            end
        end
  | _ =>
      exists r,
        CreateUserView.as_view DEFAULTS s creation request db
          = Responded r db /\
        status r = HTTP_405_METHOD_NOT_ALLOWED
  end.
Proof.
  split; [reflexivity|].
  unfold CreateUserView.as_view, dispatch. rewrite default_initial.
  change (Ok ?a ≫= ?f) with (f a). cbv beta.
  unfold CreateUserView.handler, CreateModelMixin.create,
    CreateModelMixin.perform_create.
  destruct (method request); try (eexists; split; reflexivity).
  destruct (run_validation_new creation (data request)); [|reflexivity].
  destruct (Serializer_create creation _ [] db) as [[x db']|e]; reflexivity.
Qed.

End user_create_properties.

Section token_properties.
Import rest_framework user_views user_create.
Import CreateTokenView.

Lemma user_tokens_spec db user (kv : string * Z) :
  kv ∈ filter (fun kv : string * Z => kv.2 = user) (map_to_list (tokens db))
  <-> tokens db !! kv.1 = Some user /\ kv.2 = user.
Proof.
  rewrite list_elem_of_filter. destruct kv as [k v]. simpl.
  rewrite elem_of_map_to_list. split; intros [? ?]; subst; done.
Qed.

(** The token of a user that has one. *)
Lemma Token_get_or_create_existing drawn user db key :
  tokens_one_per_user db -> tokens db !! key = Some user ->
  Token_get_or_create drawn user db = inr (key, db).
Proof.
  intros Hone Hkey. unfold Token_get_or_create.
  assert (Hin : forall kv,
    kv ∈ filter (fun kv : string * Z => kv.2 = user) (map_to_list (tokens db))
    <-> kv = (key, user)).
  { intros [k v]. rewrite user_tokens_spec. simpl. split.
    - intros [Hk ->]. f_equal. by eapply Hone.
    - by intros [= -> ->]. }
  assert (Hnd : NoDup (filter (fun kv : string * Z => kv.2 = user)
                         (map_to_list (tokens db))))
    by apply NoDup_filter, NoDup_map_to_list.
  destruct (filter _ _) as [|kv [|kv' l]].
  - exfalso. eapply not_elem_of_nil, Hin. done.
  - assert (kv = (key, user)) as -> by (apply Hin; left). done.
  - exfalso. assert (kv = (key, user)) by (apply Hin; left).
    assert (kv' = (key, user)) by (apply Hin; right; left). subst.
    apply NoDup_cons in Hnd as [Hnd _]. apply Hnd. left.
Qed.

(** A new token for a user that has none. *)
Lemma Token_get_or_create_new drawn user db :
  (forall key, tokens db !! key <> Some user) -> tokens db !! drawn = None ->
  Token_get_or_create drawn user db =
    inr (drawn, set_users (users db) (<[drawn := user]> (tokens db)) db).
Proof.
  intros Hnone Hfresh. unfold Token_get_or_create.
  destruct (filter _ _) as [|kv l] eqn:E.
  - by rewrite Hfresh.
  - exfalso. assert (Hkv : kv ∈ filter (fun kv : string * Z => kv.2 = user)
                              (map_to_list (tokens db))) by (rewrite E; left).
    apply user_tokens_spec in Hkv as [Hkv _]. by eapply Hnone.
Qed.

(** Whether a user has a token can be told from the token table. *)
Lemma classic_token db user :
  (exists key, tokens db !! key = Some user) \/
  (forall key, tokens db !! key <> Some user).
Proof.
  destruct (filter (fun kv : string * Z => kv.2 = user)
              (map_to_list (tokens db))) as [|kv l] eqn:E.
  - right. intros key Hkey.
    assert (Hin : (key, user) ∈ filter (fun kv : string * Z => kv.2 = user)
                                  (map_to_list (tokens db)))
      by (by apply user_tokens_spec).
    rewrite E in Hin. by apply elem_of_nil in Hin.
  - left. exists kv.1.
    assert (Hin : kv ∈ filter (fun kv : string * Z => kv.2 = user)
                         (map_to_list (tokens db))) by (rewrite E; left).
    by apply user_tokens_spec in Hin as [Hin _].
Qed.

(** X13.  Obtaining a token and using it.  Under the framework's default
    settings, when no user has two tokens, a POST whose credentials the
    serializer validates to an active user, who has a token already or for
    whom a key not in use is drawn, is answered 200 with a token key such
    that: the key is that user's token; a request carrying it is
    authenticated as that user; every token that was valid stays valid and
    no user is changed; still no user has two tokens; and asking again
    with credentials of the same user returns the same key and writes
    nothing, whatever key is drawn. *)
Theorem obtain_token_then_authenticate (serializer_class : AuthTokenSerializer)
    (drawn : string) (request : Request) (db : DB) (uid : Z) (u : User) :
  method request = POST ->
  validate_credentials serializer_class (data request) db = inr uid ->
  users db !! uid = Some u -> is_active u = true ->
  tokens_one_per_user db ->
  (exists key, tokens db !! key = Some uid) \/ tokens db !! drawn = None ->
  exists key db',
    as_view DEFAULTS serializer_class drawn request db =
      TokenResponded
        {| status := HTTP_200_OK; body := JObj [("token", JStr key)] |} db' /\
    tokens db' !! key = Some uid /\
    (forall request', auth_token request' = Some key ->
                      authenticates db' request' (uid, u)) /\
    users db' = users db /\
    (forall k v, tokens db !! k = Some v -> tokens db' !! k = Some v) /\
    tokens_one_per_user db' /\
    forall drawn' request',
      method request' = POST ->
      validate_credentials serializer_class (data request') db' = inr uid ->
      as_view DEFAULTS serializer_class drawn' request' db' =
        TokenResponded
          {| status := HTTP_200_OK; body := JObj [("token", JStr key)] |} db'.
Proof.
  intros Hm Hv Hu Ha Hone Hcase.
  assert (Hview : forall drawn0 request0 db0 key0 db1,
    method request0 = POST ->
    validate_credentials serializer_class (data request0) db0 = inr uid ->
    Token_get_or_create drawn0 uid db0 = inr (key0, db1) ->
    as_view DEFAULTS serializer_class drawn0 request0 db0 =
      TokenResponded
        {| status := HTTP_200_OK; body := JObj [("token", JStr key0)] |} db1).
  { intros drawn0 request0 db0 key0 db1 Hm0 Hv0 Hg.
    unfold as_view.
    change (initial _ [] request0 db0) with (Ok (@None (instance User))).
    cbv iota. rewrite Hm0. unfold post.
    by rewrite Hv0, Hg. }
  assert (Hagain : forall key db1,
    tokens_one_per_user db1 -> tokens db1 !! key = Some uid ->
    forall drawn' request',
      method request' = POST ->
      validate_credentials serializer_class (data request') db1 = inr uid ->
      as_view DEFAULTS serializer_class drawn' request' db1 =
        TokenResponded
          {| status := HTTP_200_OK; body := JObj [("token", JStr key)] |} db1).
  { intros key db1 Hone1 Hkey drawn' request' Hm' Hv'.
    apply Hview; [done..|]. by apply Token_get_or_create_existing. }
  assert (Hauth : forall key db1,
    tokens db1 !! key = Some uid -> users db1 = users db ->
    forall request', auth_token request' = Some key ->
                     authenticates db1 request' (uid, u)).
  { intros key db1 Hkey Hus request' Hr.
    eapply token_authenticates; [done..| |done]. by rewrite Hus. }
  destruct (classic_token db uid) as [[key Hkey] | Hnone].
  - exists key, db. split.
    { apply Hview; [done..|]. by apply Token_get_or_create_existing. }
    split; [done|]. split; [by apply Hauth|]. split; [done|].
    split; [done|]. split; [done|]. by apply Hagain.
  - destruct Hcase as [[key Hkey] | Hfresh]; [by destruct (Hnone key)|].
    exists drawn, (set_users (users db) (<[drawn := uid]> (tokens db)) db).
    assert (Hone' : tokens_one_per_user
              (set_users (users db) (<[drawn := uid]> (tokens db)) db)).
    { intros k1 k2 user. simpl. rewrite !lookup_insert.
      repeat case_decide; subst; try done.
      - intros [= <-] Hk2. by destruct (Hnone k2).
      - intros Hk1 [= <-]. by destruct (Hnone k1).
      - apply Hone. }
    split.
    { apply Hview; [done..|]. by apply Token_get_or_create_new. }
    split; [simpl; by rewrite lookup_insert_eq|].
    split; [apply Hauth; [simpl; by rewrite lookup_insert_eq|done]|].
    split; [done|]. split.
    { intros k v Hk. simpl. rewrite lookup_insert_ne; [done|]. congruence. }
    split; [done|].
    apply Hagain; [done|]. simpl. by rewrite lookup_insert_eq.
Qed.

(** Bob has no token; he posts his credentials, the key drawn is his
    token, and [me/] with that key shows Bob. *)
Lemma obtain_token_then_authenticate_witness :
  exists key db',
    as_view DEFAULTS Sample_create.auth_token_serializer "key-new"
      {| method := POST; auth_token := None; query_params := [];
         data := JObj [("email", JStr "bob@example.com");
                       ("password", JStr "pw-b")];
         pk := "" |}
      Sample_create.db_without_bobs_token =
    TokenResponded
      {| status := 200; body := JObj [("token", JStr key)] |} db' /\
    key = "key-new" /\
    ManageUserView.as_view Sample.user_serializers
      (Sample.request GET key [] JNull "") db' =
    Responded {| status := 200;
                 body := JObj [("email", JStr "bob@example.com")] |} db'.
Proof.
  destruct (obtain_token_then_authenticate
    Sample_create.auth_token_serializer "key-new"
    {| method := POST; auth_token := None; query_params := [];
       data := JObj [("email", JStr "bob@example.com");
                     ("password", JStr "pw-b")];
       pk := "" |}
    Sample_create.db_without_bobs_token 2 Sample.bob.2
    eq_refl eq_refl eq_refl eq_refl)
    as (key & db' & Hview & _).
  - intros k1 k2 user. simpl.
    rewrite !lookup_singleton_Some. intros [<- _] [<- _]. done.
  - right. reflexivity.
  - exists key, db'. split; [exact Hview|].
    vm_compute in Hview. injection Hview as <- <-. split; reflexivity.
Defined.

End token_properties.

(** ** Routes *)
Section url_properties.

(** X14.  No pattern of the user routes shadows another: every pattern
    is found by its route and its route by its name, a path resolves only
    to a pattern that has exactly that route, and so [reverse] followed by
    [resolve] gives the view of the name.  In particular the one route
    written without a final slash, [list-users], is not found with
    one. *)
Theorem user_routes_resolve_and_reverse :
  (forall route v name,
     (route, v, name) ∈ user_urls.urlpatterns ->
     user_urls.resolve route = Some v /\
     user_urls_reverse name = Some route) /\
  (forall path v,
     user_urls.resolve path = Some v ->
     exists name, (path, v, name) ∈ user_urls.urlpatterns) /\
  (forall name route,
     user_urls_reverse name = Some route ->
     exists v, user_urls.resolve route = Some v /\
               (route, v, name) ∈ user_urls.urlpatterns) /\
  user_urls.resolve "list-users/" = None.
Proof.
  split; [|split; [|split]].
  - intros route v name. unfold user_urls.urlpatterns.
    rewrite !elem_of_cons, elem_of_nil.
    intros [H|[H|[H|[H|[H|[H|[]]]]]]]; injection H as -> -> ->;
      split; reflexivity.
  - intros path v. unfold user_urls.resolve, user_urls.urlpatterns.
    intros Hr. apply fmap_Some in Hr as ([i [[route v'] name]] & Hf & ->).
    apply list_find_Some in Hf as (Hi & Hroute & _). simpl in *. subst.
    exists name. apply list_elem_of_lookup. by exists i.
  - intros name route. unfold user_urls_reverse, user_urls.urlpatterns.
    intros Hr. apply fmap_Some in Hr as ([i [[route' v] name']] & Hf & ->).
    apply list_find_Some in Hf as (Hi & Hname & _). simpl in *. subst.
    assert (Hin : (route', v, name) ∈
      [("create/", user_urls.CreateUserView, "create");
       ("create-gapi-view/", user_urls.CreateUserApiView, "create_gapi_view");
       ("token/", user_urls.CreateTokenView, "token");
       ("me/", user_urls.ManageUserView, "me");
       ("me-api-view/", user_urls.ManageUserApiView, "me_api_view");
       ("list-users", user_urls.ListAllUsersApiView, "all_users")])
      by (apply list_elem_of_lookup; by exists i).
    exists v. split; [|done]. revert Hin.
    rewrite !elem_of_cons, elem_of_nil.
    intros [H|[H|[H|[H|[H|[H|[]]]]]]]; injection H as -> -> ->; reflexivity.
  - reflexivity.
Qed.

End url_properties.

